(** * AI social media agent: a shallow embedding of the generation pipeline

    The development embeds the five backend modules of the repository
    ([brand_analyzer.py], [post_generator.py], [feedback_loop.py],
    [image_generator.py], [app.py]) as a store-passing program over a
    [world] that holds

    - the heap of mutable post dictionaries (a post is a Python [dict]
      that several stages mutate in place, so posts live behind
      references),
    - the session attribute [self.brand_profile],
    - the trace of external effects (model requests, image requests,
      file writes), and
    - the future behaviour of the outside world: the replies of the text
      model, of the image service, of the local renderer, of the clock, of
      the web and of the file system, each as a stream that a call
      consumes.

    Prompts are texts that only the model reads; what the embedding keeps
    of prompt construction is whether it raises, because an exception
    raised while a prompt is built is not inside any [try] block. *)

From Stdlib Require Import QArith Qcanon.
From stdpp Require Import gmap strings list numbers.

Local Open Scope string_scope.
Local Open Scope Z_scope.

(** ** Python values

    The values that flow through the pipeline are what [json.loads]
    produces, plus what the code itself stores next to them.  A finite
    float is identified with the rational number it denotes. *)

#[warnings="-register-all"]
Inductive pyval :=
| VNone
| VBool (b : bool)
| VInt (n : Z)
| VFloat (q : Qc)
| VStr (s : string)
| VList (l : list pyval)
| VDict (m : gmap string pyval).

Abbreviation dict := (gmap string pyval).

(** Numbers compare across [bool], [int] and [float], as in Python. *)
Definition py_num (v : pyval) : option Q :=
  match v with
  | VBool b => Some (if b then 1%Q else 0%Q)
  | VInt n => Some (inject_Z n)
  | VFloat q => Some (this q)
  | _ => None
  end.

(** Python's [==] on these values. *)
Fixpoint py_eq (a b : pyval) : bool :=
  match py_num a, py_num b with
  | Some x, Some y => Qeq_bool x y
  | _, _ =>
    match a, b with
    | VNone, VNone => true
    | VStr s, VStr t => bool_decide (s = t)
    | VList l, VList l' =>
        (fix go (l l' : list pyval) : bool :=
           match l, l' with
           | [], [] => true
           | x :: l, y :: l' => py_eq x y && go l l'
           | _, _ => false
           end) l l'
    | VDict m, VDict m' =>
        bool_decide (size m = size m') &&
        map_fold (λ k v acc,
                    acc && match m' !! k with
                           | Some v' => py_eq v v'
                           | None => false
                           end) true m
    | _, _ => false
    end
  end.

(** The number of containers in a value, for induction on values. *)
Fixpoint pyval_size (v : pyval) : nat :=
  match v with
  | VList l =>
      S ((fix go (l : list pyval) : nat :=
            match l with
            | [] => 0%nat
            | x :: l' => (pyval_size x + go l')%nat
            end) l)
  | VDict m => S (map_fold (λ _ x acc, pyval_size x + acc)%nat 0%nat m)
  | _ => 0%nat
  end.

(** Truth value of a value in a condition ([if x:], [not x]). *)
Definition py_truthy (v : pyval) : bool :=
  match v with
  | VNone => false
  | VBool b => b
  | VInt n => negb (n =? 0)
  | VFloat q => negb (Qeq_bool (this q) 0)
  | VStr s => negb (bool_decide (s = ""))
  | VList l => negb (bool_decide (l = []))
  | VDict m => negb (bool_decide (size m = 0%nat))
  end.

(** ** Exceptions and results *)

Inductive exn :=
| ValueError | KeyError | TypeError | AttributeError
| APIError | JSONDecodeError | RequestException | OSError
| FileNotFoundError.

Inductive res (A : Type) :=
| Ret (a : A)
| Raise (e : exn).
Arguments Ret {A} a.
Arguments Raise {A} e.

Definition res_bind {A B} (r : res A) (f : A → res B) : res B :=
  match r with
  | Ret a => f a
  | Raise e => Raise e
  end.

(** ** Operations of Python on values *)

(** [d.get(k)] and [d.get(k, dflt)] on a dictionary. *)
Definition dict_get (d : dict) (k : string) : pyval := default VNone (d !! k).
Definition dict_get_or (d : dict) (k : string) (dflt : pyval) : pyval :=
  default dflt (d !! k).

(** [d[k]] on a dictionary. *)
Definition dict_item (d : dict) (k : string) : res pyval :=
  match d !! k with
  | Some v => Ret v
  | None => Raise KeyError
  end.

(** [v[k]] with a string key, on any value: only a dictionary can be
    indexed by a string. *)
Definition subscript (v : pyval) (k : string) : res pyval :=
  match v with
  | VDict m => dict_item m k
  | _ => Raise TypeError
  end.

(** [v.get(k, dflt)] on any value: only a dictionary has [get]. *)
Definition get_method (v : pyval) (k : string) (dflt : pyval) : res pyval :=
  match v with
  | VDict m => Ret (dict_get_or m k dflt)
  | _ => Raise AttributeError
  end.

(** The target of [v[k] = x] with a string key: only a dictionary. *)
Definition as_assignable (v : pyval) : res dict :=
  match v with
  | VDict m => Ret m
  | _ => Raise TypeError
  end.

Fixpoint chars (s : string) : list pyval :=
  match s with
  | EmptyString => []
  | String c s' => VStr (String c EmptyString) :: chars s'
  end.

(** The items a [for] loop (or [enumerate], or a comprehension) draws
    from a value. *)
Definition py_iter (v : pyval) : res (list pyval) :=
  match v with
  | VList l => Ret l
  | VStr s => Ret (chars s)
  | VDict m => Ret (VStr <$> (map_to_list m).*1)
  | _ => Raise TypeError
  end.

Definition is_str (v : pyval) : bool :=
  match v with VStr _ => true | _ => false end.

(** [sep.join(v)]: [v] must be iterable and yield strings only.  The
    joined text goes into a prompt and is not kept. *)
Definition join_check (v : pyval) : res unit :=
  res_bind (py_iter v) (λ items,
    if forallb is_str items then Ret tt else Raise TypeError).

(** [v[:3]]: lists and strings can be sliced. *)
Definition slice3 (v : pyval) : res pyval :=
  match v with
  | VList l => Ret (VList (take 3 l))
  | VStr s => Ret (VStr (String.substring 0 3 s))
  | _ => Raise TypeError
  end.

(** ** The world *)

Definition loc := nat.

(** What a chat-completion request is for. *)
Inductive purpose := Analyze | Generate | Refine | Critique | Improve.

(** What becomes of one chat-completion request together with the
    extraction of its JSON payload (the request itself, then
    [response.choices[0].message.content], the fenced-block search and
    [json.loads]). *)
Inductive reply :=
| ApiError                (* the request raises *)
| BadJson                 (* text came back, but no JSON could be read *)
| Parsed (v : pyval).     (* [json.loads] returned [v] *)

(** What becomes of one image synthesis: the request, the download, the
    decoding of the raster, and saving it. *)
Inductive image_reply :=
| SynthError | DownloadError | DecodeError | BgSaveError | ImageOk.

(** The local renderer as one call of [add_text_overlay] finds it. *)
Record render_env := {
  open_ok : bool;                       (* Image.open succeeds *)
  img_size : Z * Z;                     (* image.size *)
  font_exists : string → bool;          (* os.path.exists(font_path) *)
  truetype_ok : string → bool;          (* ImageFont.truetype succeeds *)
  default_font_ok : bool;               (* ImageFont.load_default succeeds *)
  bbox : option (Z * Z * Z * Z);        (* draw.textbbox, None: it raises *)
  draw_ok : bool;                       (* draw.text succeeds *)
  save_ok : bool                        (* image.save succeeds *)
}.

Inductive font := TrueType (path : string) | DefaultFont.

(** What a written file holds. *)
Inductive content :=
| Text (s : string)
| Json (v : pyval)
| Background (dims : string)
| Placeholder (dims : string)
| Overlaid (src : string) (text : pyval) (f : font) (x y : Z).

Inductive event :=
| EChat (p : purpose)
| EFetch (url : string)
| EImageRequest (dims : string)
| EDownload
| EOpenImage (path : string)
| EMakedirs (dir : string)
| ECreate (path : string)
| EWrite (path : string) (c : content).

Record world := {
  heap : gmap loc dict;
  self_brand_profile : pyval;
  log : list event;
  chat : nat → reply;
  images : nat → image_reply;
  renders : nat → render_env;
  clock : nat → string;
  web : nat → option string;
  fs : nat → bool     (* whether the next file-system operation succeeds *)
}.

Definition M (A : Type) : Type := world → res A * world.

Definition ret {A} (a : A) : M A := λ w, (Ret a, w).
Definition raise {A} (e : exn) : M A := λ w, (Raise e, w).
Definition bind {A B} (c : M A) (f : A → M B) : M B :=
  λ w, match c w with
       | (Ret a, w') => f a w'
       | (Raise e, w') => (Raise e, w')
       end.
Definition lift {A} (r : res A) : M A := λ w, (r, w).

(** [try: body except Exception: handler]: what the body did to the world
    before it raised stays done. *)
Definition try_except {A} (body : M A) (handler : exn → M A) : M A :=
  λ w, match body w with
       | (Ret a, w') => (Ret a, w')
       | (Raise e, w') => handler e w'
       end.

#[global] Instance M_ret : MRet M := @ret.
#[global] Instance M_bind : MBind M := λ A B f c, bind c f.

Definition shift {A} (s : nat → A) : nat → A := λ n, s (S n).

Definition emit (e : event) : M unit := λ w,
  (Ret tt, {| heap := heap w; self_brand_profile := self_brand_profile w;
              log := log w ++ [e]; chat := chat w; images := images w;
              renders := renders w; clock := clock w; web := web w; fs := fs w |}).

Definition with_heap (h : gmap loc dict) (w : world) : world :=
  {| heap := h; self_brand_profile := self_brand_profile w;
     log := log w; chat := chat w; images := images w;
     renders := renders w; clock := clock w; web := web w; fs := fs w |}.

(** A new dictionary object. *)
Definition alloc (d : dict) : M loc := λ w,
  let l := fresh (dom (heap w)) in (Ret l, with_heap (<[l := d]> (heap w)) w).

Definition load (l : loc) : M dict := λ w, (Ret (heap w !!! l), w).

Definition store (l : loc) (d : dict) : M unit := λ w,
  (Ret tt, with_heap (<[l := d]> (heap w)) w).

Definition next_chat : M reply := λ w,
  (Ret (chat w 0%nat),
   {| heap := heap w; self_brand_profile := self_brand_profile w;
      log := log w; chat := shift (chat w); images := images w;
      renders := renders w; clock := clock w; web := web w; fs := fs w |}).

Definition next_image : M image_reply := λ w,
  (Ret (images w 0%nat),
   {| heap := heap w; self_brand_profile := self_brand_profile w;
      log := log w; chat := chat w; images := shift (images w);
      renders := renders w; clock := clock w; web := web w; fs := fs w |}).

Definition next_render : M render_env := λ w,
  (Ret (renders w 0%nat),
   {| heap := heap w; self_brand_profile := self_brand_profile w;
      log := log w; chat := chat w; images := images w;
      renders := shift (renders w); clock := clock w; web := web w; fs := fs w |}).

(** [datetime.now().strftime("%Y%m%d_%H%M%S")] *)
Definition now : M string := λ w,
  (Ret (clock w 0%nat),
   {| heap := heap w; self_brand_profile := self_brand_profile w;
      log := log w; chat := chat w; images := images w;
      renders := renders w; clock := shift (clock w); web := web w; fs := fs w |}).

Definition next_web : M (option string) := λ w,
  (Ret (web w 0%nat),
   {| heap := heap w; self_brand_profile := self_brand_profile w;
      log := log w; chat := chat w; images := images w;
      renders := renders w; clock := clock w; web := shift (web w); fs := fs w |}).

Definition next_fs : M bool := λ w,
  (Ret (fs w 0%nat),
   {| heap := heap w; self_brand_profile := self_brand_profile w;
      log := log w; chat := chat w; images := images w;
      renders := renders w; clock := clock w; web := web w;
      fs := shift (fs w) |}).

(** One operation on the file system that the code does not guard: when
    it fails, its [OSError] propagates. *)
Definition fs_step : M unit :=
  bind next_fs (λ ok : bool, if ok then ret tt else raise OSError).

Definition set_brand_profile (p : pyval) : M unit := λ w,
  (Ret tt, {| heap := heap w; self_brand_profile := p;
              log := log w; chat := chat w; images := images w;
              renders := renders w; clock := clock w; web := web w; fs := fs w |}).

Definition get_brand_profile : M pyval := λ w, (Ret (self_brand_profile w), w).

(** One chat-completion request and the reading of its JSON payload: the
    part of every [try] block from [self.client.chat.completions.create]
    to [json.loads]. *)
Definition chat_json (p : purpose) : M pyval :=
  emit (EChat p);;
  r ← next_chat;
  match r with
  | ApiError => raise APIError
  | BadJson => raise JSONDecodeError
  | Parsed v => ret v
  end.

(** [os.path.join(dir, name)] for a relative [name], POSIX. *)
Definition ends_with_slash (s : string) : bool :=
  bool_decide (String.substring (String.length s - 1) 1 s = "/").

Definition path_join (dir name : string) : string :=
  if bool_decide (dir = "") then name
  else if ends_with_slash dir then dir +:+ name
  else dir +:+ "/" +:+ name.

#[global] Instance res_ret : MRet res := @Ret.
#[global] Instance res_mbind : MBind res := λ A B f r, res_bind r f.

(** [for x in xs: body x], collecting what the bodies return. *)
Fixpoint for_each {A B} (body : A → M B) (xs : list A) : M (list B) :=
  match xs with
  | [] => ret []
  | x :: xs' => y ← body x; ys ← for_each body xs'; ret (y :: ys)
  end.

(** ** post_generator.py *)

Definition str_list (l : list string) : pyval := VList (VStr <$> l).

Definition linkedin_specs : dict := list_to_map [
  ("ideal_length", VStr "150-300 words");
  ("max_length", VStr "3000 characters");
  ("tone", VStr "professional but conversational");
  ("hashtags", VStr "3-5 relevant hashtags");
  ("line_breaks", VStr "Use line breaks for readability");
  ("emojis", VStr "Use sparingly, professionally");
  ("best_practices", str_list [
     "Start with a hook";
     "Use short paragraphs";
     "Include a clear CTA";
     "Tag relevant people/companies when appropriate"])].

Definition instagram_specs : dict := list_to_map [
  ("ideal_length", VStr "100-200 words");
  ("max_length", VStr "2200 characters");
  ("tone", VStr "casual and engaging");
  ("hashtags", VStr "5-10 relevant hashtags");
  ("line_breaks", VStr "Use line breaks and spacing");
  ("emojis", VStr "Use freely to enhance message");
  ("best_practices", str_list [
     "Front-load the key message";
     "Use emojis as visual breaks";
     "Include relevant hashtags";
     "Encourage engagement (likes, shares, comments)"])].

Definition specs : gmap string dict := list_to_map [
  ("linkedin", linkedin_specs);
  ("instagram", instagram_specs)].

(** [PostGenerator._get_platform_specs]:
    [specs.get(platform, specs["linkedin"])]. *)
Definition _get_platform_specs (platform : string) : dict :=
  default linkedin_specs (specs !! platform).

(** [PostGenerator._build_generation_prompt]: the lookups and the join
    that the prompt text is made of, in the order the code evaluates
    them.  The optional sections and [json.dumps] cannot raise on the
    values of this model. *)
Definition _build_generation_prompt (brand_profile : pyval)
    (intent platform : string) (platform_specs : dict)
    (constraints rag_elements : option pyval) (num_variations : Z) : res unit :=
  brand_voice ← subscript brand_profile "brand_voice";
  tone ← subscript brand_voice "tone";
  brand_voice ← subscript brand_profile "brand_voice";
  emoji_usage ← subscript brand_voice "emoji_usage";
  cta ← subscript brand_profile "cta_style";
  cta_style ← subscript cta "typical_ctas";
  first3 ← slice3 cta_style;
  join_check first3;;
  subscript brand_profile "brand_voice";;
  subscript brand_profile "messaging_patterns";;
  Ret tt.

(** What [generate_variations] hands back: [variations['posts']], which
    is a list of posts whenever the loop over it attached metadata to at
    least one element; an empty string or an empty dictionary also
    survives the loop, having no element to attach anything to. *)
Inductive variations :=
| Posts (ps : list loc)
| EmptyIterable (v : pyval).

(** [variation['platform'] = platform] and the two assignments after it,
    for the elements from index [idx] on.  The element dictionaries are
    fresh objects of [json.loads]; they enter the heap here. *)
Fixpoint attach_metadata (platform intent : string) (idx : nat)
    (items : list pyval) : M (list loc) :=
  match items with
  | [] => ret []
  | variation :: rest =>
      d ← lift (as_assignable variation);
      l ← alloc (<["variation_number" := VInt (Z.of_nat idx + 1)]>
                 (<["intent" := VStr intent]>
                 (<["platform" := VStr platform]> d)));
      ls ← attach_metadata platform intent (S idx) rest;
      ret (l :: ls)
  end.

(** The [try] block of [generate_variations] (lines 57-86). *)
Definition generate_variations_try (intent platform : string) : M variations :=
  variations ← chat_json Generate;
  posts ← lift (subscript variations "posts");
  items ← lift (py_iter posts);
  ls ← attach_metadata platform intent 0 items;
  ret (match posts with
       | VList _ => Posts ls
       | _ => EmptyIterable posts
       end).

(** [PostGenerator.generate_variations] *)
Definition generate_variations (brand_profile : pyval)
    (intent platform : string) (constraints rag_elements : option pyval)
    (num_variations : Z) : M variations :=
  let platform_specs := _get_platform_specs platform in
  lift (_build_generation_prompt brand_profile intent platform platform_specs
          constraints rag_elements num_variations);;
  try_except (generate_variations_try intent platform) (λ _, ret (Posts [])).

(** [PostGenerator.refine_with_feedback] *)
Definition refine_with_feedback (post_data : loc) (user_feedback : string)
    (brand_profile : pyval) : M loc :=
  try_except
    (refined_post ← chat_json Refine;
     post ← load post_data;
     d ← lift (as_assignable refined_post);
     alloc (<["intent" := dict_get post "intent"]>
            (<["platform" := dict_get post "platform"]> d)))
    (λ _, ret post_data).

(** ** feedback_loop.py *)

Definition seven : Qc := Q2Qc 7.

(** [FeedbackLoop._default_critique] *)
Definition _default_critique : pyval := VDict (list_to_map [
  ("scores", VDict (list_to_map [
     ("brand_consistency", VInt 7);
     ("message_clarity", VInt 7);
     ("cta_effectiveness", VInt 7);
     ("text_readability", VInt 7);
     ("platform_appropriateness", VInt 7);
     ("engagement_potential", VInt 7)]));
  ("overall_score", VFloat seven);
  ("strengths", str_list ["Clear message"]);
  ("weaknesses", str_list ["Could be more engaging"]);
  ("specific_improvements",
     str_list ["Enhance the hook"; "Strengthen the CTA"]);
  ("priority_fix", VStr "Make the opening more attention-grabbing")]).

(** [FeedbackLoop._critique_post].  The prompt reads the post with
    [post.get] and dumps the profile; neither raises. *)
Definition _critique_post (post : loc) (brand_profile : pyval)
    (platform : string) : M pyval :=
  try_except (chat_json Critique) (λ _, ret _default_critique).

(** The improvement prompt of [_improve_post] (lines 172-203): it is
    built before the [try], from the critique. *)
Definition improvement_prompt (critique : pyval) : res unit :=
  get_method critique "overall_score" (VInt 7);;
  weaknesses ← get_method critique "weaknesses" (VList []);
  join_check weaknesses;;
  get_method critique "priority_fix" (VStr "Improve overall quality");;
  improvements ← get_method critique "specific_improvements" (VList []);
  py_iter improvements;;
  Ret tt.

(** [FeedbackLoop._improve_post] *)
Definition _improve_post (post : loc) (critique brand_profile : pyval)
    (platform : string) : M loc :=
  lift (improvement_prompt critique);;
  try_except
    (improved_post ← chat_json Improve;
     p ← load post;
     d ← lift (as_assignable improved_post);
     score ← lift (get_method critique "overall_score" VNone);
     alloc (<["critique_score" := score]>
            (<["variation_number" := dict_get p "variation_number"]>
            (<["intent" := dict_get p "intent"]>
            (<["platform" := dict_get p "platform"]> d)))))
    (λ _, ret post).

(** The body of the [for i in range(iterations)] loop, [n] times. *)
Fixpoint iterate_rounds (n : nat) (current_post : loc) (brand_profile : pyval)
    (platform : string) : M loc :=
  match n with
  | O => ret current_post
  | S n' =>
      critique ← _critique_post current_post brand_profile platform;
      current_post ← _improve_post current_post critique brand_profile platform;
      iterate_rounds n' current_post brand_profile platform
  end.

(** [FeedbackLoop.iterate] *)
Definition iterate (post : loc) (brand_profile : pyval) (platform : string)
    (iterations : Z) : M loc :=
  d ← load post;
  current_post ← alloc d;
  iterate_rounds (Z.to_nat iterations) current_post brand_profile platform.

(** ** brand_analyzer.py *)

(** [BrandAnalyzer._default_brand_profile] *)
Definition _default_brand_profile : pyval := VDict (list_to_map [
  ("brand_voice", VDict (list_to_map [
     ("tone", VStr "professional");
     ("personality_traits",
        str_list ["innovative"; "reliable"; "forward-thinking"]);
     ("emoji_usage", VStr "moderate");
     ("sentence_style", VStr "medium");
     ("language_complexity", VStr "moderate")]));
  ("visual_identity", VDict (list_to_map [
     ("primary_colors", str_list ["#1a73e8"; "#34a853"]);
     ("design_style", VStr "modern");
     ("imagery_style", VStr "photographic")]));
  ("messaging_patterns", VDict (list_to_map [
     ("key_themes", str_list ["innovation"; "technology"; "growth"]);
     ("value_propositions",
        str_list ["cutting-edge solutions"; "reliable service"]);
     ("target_audience", VStr "tech-savvy professionals");
     ("common_topics", str_list ["AI"; "technology"; "business"])]));
  ("cta_style", VDict (list_to_map [
     ("typical_ctas", str_list ["Learn more"; "Get started"; "Join us"]);
     ("cta_placement", VStr "end");
     ("cta_tone", VStr "professional")]));
  ("content_structure", VDict (list_to_map [
     ("typical_post_length", VStr "medium");
     ("uses_hashtags", VBool true);
     ("hashtag_count", VStr "3-5");
     ("uses_questions", VBool true);
     ("uses_statistics", VBool false)]))]).

(** [BrandAnalyzer.scrape_website].  The web stream gives the page text
    after tag stripping and whitespace clean-up, or [None] when the fetch
    or the parsing raises. *)
Definition scrape_website (url : string) : M string :=
  try_except
    (emit (EFetch url);;
     page ← next_web;
     match page with
     | None => raise RequestException
     | Some text => ret (String.substring 0 5000 text)
     end)
    (λ _, ret "").

(** [BrandAnalyzer.analyze].  The joined posts and the dumped guidelines
    only feed the prompt. *)
Definition analyze (website_url : option string)
    (existing_posts : option (list string))
    (brand_guidelines : option pyval) : M pyval :=
  website_content ←
    match website_url with
    | Some url => if bool_decide (url = "") then ret ""
                  else scrape_website url
    | None => ret ""
    end;
  try_except (chat_json Analyze) (λ _, ret _default_brand_profile).

(** ** image_generator.py *)

(** [self.output_dir] of [ImageGenerator] *)
Definition output_dir : string := "data/generated_images".

Definition dimensions_table : gmap string string := list_to_map [
  ("linkedin", "1792x1024");
  ("instagram", "1024x1024")].

(** [ImageGenerator._get_image_dimensions]:
    [dimensions.get(platform, "1024x1024")].  The orchestrator passes
    whatever [post_data.get('platform', 'linkedin')] holds, so the key is
    any value; a list or a dictionary cannot be hashed. *)
Definition _get_image_dimensions (platform : pyval) : res string :=
  match platform with
  | VStr s => Ret (default "1024x1024" (dimensions_table !! s))
  | VList _ | VDict _ => Raise TypeError
  | _ => Ret "1024x1024"
  end.

Definition font_paths : list string := [
  "/usr/share/fonts/truetype/dejavu/DejaVuSans-Bold.ttf";
  "C:/Windows/Fonts/arialbd.ttf";
  "/System/Library/Fonts/Helvetica.ttc"].

(** The loop over [font_paths]: the first path that exists and loads; a
    path that exists but does not load is skipped. *)
Fixpoint pick_font (r : render_env) (paths : list string) : option font :=
  match paths with
  | [] => None
  | font_path :: rest =>
      if font_exists r font_path then
        if truetype_ok r font_path then Some (TrueType font_path)
        else pick_font r rest
      else pick_font r rest
  end.

(** [ImageGenerator.add_text_overlay].  The font size,
    [int(img_width * 0.08)], is a floating-point product; a font is
    recorded by where it was loaded from. *)
Definition add_text_overlay (image_path : string) (text : pyval)
    (brand_profile : pyval) : M string :=
  try_except
    (r ← next_render;
     emit (EOpenImage image_path);;
     (if open_ok r then ret tt else raise OSError);;
     let '(img_width, img_height) := img_size r in
     f ← match pick_font r font_paths with
         | Some f => ret f
         | None => if default_font_ok r then ret DefaultFont else raise OSError
         end;
     b ← match bbox r with
         | Some b => ret b
         | None => raise TypeError
         end;
     let '(b0, b1, b2, b3) := b in
     let text_width := b2 - b0 in
     let text_height := b3 - b1 in
     let x := (img_width - text_width) `div` 2 in
     let y := img_height `div` 3 in
     (if draw_ok r then ret tt else raise TypeError);;
     timestamp ← now;
     let filename := "final_" +:+ timestamp +:+ ".png" in
     let filepath := path_join output_dir filename in
     (if save_ok r then emit (EWrite filepath (Overlaid image_path text f x y))
      else raise OSError);;
     ret filepath)
    (λ _, ret image_path).

Section Pipeline.

(** [ImageGenerator._hex_to_color_names] is called by
    [_build_dalle_prompt] but [image_generator.py] does not define it: it
    is a parameter, a function from the colour list to the names or to an
    exception. *)
Variable _hex_to_color_names : pyval → res pyval.

(** The file name the placeholder is written under (see below). *)
Variable placeholder_name : string → pyval → string.

(** Modelled from the spec: [ImageGenerator._create_placeholder_image] is
    called by [generate_background] but [image_generator.py] does not
    define it.  The spec has the fallback produce "a plain placeholder
    raster sized to the resolved dimensions, filled with a brand-derived
    solid color", so that "the pipeline must never fail a post solely due
    to image-generation failure": one raster is written and its path
    returned. *)
Definition _create_placeholder_image (dimensions : string)
    (brand_profile : pyval) : M string :=
  let filepath := path_join output_dir (placeholder_name dimensions brand_profile) in
  emit (EWrite filepath (Placeholder dimensions));;
  ret filepath.

(** [ImageGenerator._build_dalle_prompt] *)
Definition _build_dalle_prompt (post_data : dict) (brand_profile : pyval)
    (platform : pyval) : res unit :=
  visual_identity ← subscript brand_profile "visual_identity";
  colors ← get_method visual_identity "primary_colors" (VList [VStr "#1a73e8"]);
  color_names ← _hex_to_color_names colors;
  visual_identity ← subscript brand_profile "visual_identity";
  get_method visual_identity "design_style" (VStr "modern");;
  join_check color_names.

(** [ImageGenerator.generate_background] *)
Definition generate_background (post_data : loc) (brand_profile : pyval)
    (platform : pyval) : M string :=
  dimensions ← lift (_get_image_dimensions platform);
  post ← load post_data;
  lift (_build_dalle_prompt post brand_profile platform);;
  try_except
    (emit (EImageRequest dimensions);;
     r ← next_image;
     match r with
     | SynthError => raise APIError
     | DownloadError => emit EDownload;; raise RequestException
     | DecodeError => emit EDownload;; raise OSError
     | BgSaveError => emit EDownload;; now;; raise OSError
     | ImageOk =>
         emit EDownload;;
         timestamp ← now;
         let filename := "bg_" +:+ timestamp +:+ ".png" in
         let filepath := path_join output_dir filename in
         emit (EWrite filepath (Background dimensions));;
         ret filepath
     end)
    (λ _, _create_placeholder_image dimensions brand_profile).

(** ** app.py *)

(** [SocialMediaAgent.analyze_brand] *)
Definition analyze_brand (website_url : option string)
    (existing_posts : option (list string))
    (brand_guidelines : option pyval) : M pyval :=
  profile ← analyze website_url existing_posts brand_guidelines;
  set_brand_profile profile;;
  get_brand_profile.

(** Lines 109-123 of [generate_post]: the background, the overlay, and
    [post['image_path'] = final_image_path]. *)
Definition compose_image (brand_profile : pyval) (platform : string)
    (post : loc) : M loc :=
  image_path ← generate_background post brand_profile (VStr platform);
  p ← load post;
  final_image_path ←
    add_text_overlay image_path (dict_get_or p "overlay_text" (VStr "")) brand_profile;
  p ← load post;
  store post (<["image_path" := VStr final_image_path]> p);;
  ret post.

Definition posts_of (v : variations) : list loc :=
  match v with
  | Posts ps => ps
  | EmptyIterable _ => []
  end.

(** [SocialMediaAgent.generate_post] *)
Definition generate_post (intent platform : string)
    (constraints rag_elements : option pyval) : M (list loc) :=
  brand_profile ← get_brand_profile;
  (if py_truthy brand_profile then ret tt else raise ValueError);;
  initial_posts ← generate_variations brand_profile intent platform
                    constraints rag_elements 3;
  improved_posts ←
    for_each (λ post, brand_profile ← get_brand_profile;
                      iterate post brand_profile platform 2)
             (posts_of initial_posts);
  for_each (λ post, brand_profile ← get_brand_profile;
                    compose_image brand_profile platform post)
           improved_posts.

(** [SocialMediaAgent.refine_post] *)
Definition refine_post (post_data : loc) (user_feedback : string) : M loc :=
  brand_profile ← get_brand_profile;
  refined_post ← refine_with_feedback post_data user_feedback brand_profile;
  refined ← load refined_post;
  original ← load post_data;
  if negb (py_eq (dict_get refined "caption") (dict_get original "caption"))
  then
    brand_profile ← get_brand_profile;
    original ← load post_data;
    image_path ← generate_background refined_post brand_profile
                   (dict_get_or original "platform" (VStr "linkedin"));
    refined ← load refined_post;
    final_image_path ←
      add_text_overlay image_path (dict_get_or refined "overlay_text" (VStr ""))
        brand_profile;
    refined ← load refined_post;
    store refined_post (<["image_path" := VStr final_image_path]> refined);;
    ret refined_post
  else ret refined_post.

(** [os.makedirs(dir, exist_ok=True)]: the empty path cannot be created,
    any other path is created or not as the file system decides. *)
Definition makedirs (dir : string) : M unit :=
  if bool_decide (dir = "") then raise FileNotFoundError
  else fs_step;; emit (EMakedirs dir).

(** [open(path, 'w')] creates the file, or empties it. *)
Definition open_w (path : string) : M unit :=
  fs_step;; emit (ECreate path).

(** Writing to an open file and closing it at the end of the [with]. *)
Definition write_close (path : string) (c : content) : M unit :=
  fs_step;; emit (EWrite path c).

(** [SocialMediaAgent.save_post].  Nothing in it catches an exception: a
    directory that cannot be created, a file that cannot be opened or
    written, a missing caption all propagate. *)
Definition save_post (post_data : loc) (output_dir : string) : M string :=
  makedirs output_dir;;
  timestamp ← now;
  let base_filename := "post_" +:+ timestamp in
  let caption_path := path_join output_dir (base_filename +:+ "_caption.txt") in
  open_w caption_path;;
  post ← load post_data;
  caption ← lift (dict_item post "caption");
  match caption with
  | VStr s =>
      write_close caption_path (Text s);;
      let metadata_path :=
        path_join output_dir (base_filename +:+ "_metadata.json") in
      open_w metadata_path;;
      post ← load post_data;
      caption ← lift (dict_item post "caption");
      write_close metadata_path (Json (VDict (list_to_map [
        ("platform", dict_get post "platform");
        ("intent", dict_get post "intent");
        ("timestamp", VStr timestamp);
        ("caption", caption);
        ("overlay_text", dict_get_or post "overlay_text" (VStr ""))])));;
      ret output_dir
  | _ => raise TypeError
  end.

Definition default_output_dir : string := "data/generated_posts".

End Pipeline.

(** ** Vocabulary of the statements *)

Definition is_ret {A} (r : res A) : bool :=
  match r with Ret _ => true | Raise _ => false end.

(** A request whose [try] block does not get past [json.loads]. *)
Definition call_failed (r : reply) : bool :=
  match r with ApiError | BadJson => true | Parsed _ => false end.

(** The critique [_critique_post] returns for a reply. *)
Definition critique_of (r : reply) : pyval :=
  match r with Parsed v => v | _ => _default_critique end.

(** Some step of the overlay rendering raises: opening the image, getting
    a font, measuring or drawing the text, saving the result. *)
Definition render_fails (r : render_env) : bool :=
  negb (open_ok r)
  || (negb (bool_decide (is_Some (pick_font r font_paths)))
      && negb (default_font_ok r))
  || negb (bool_decide (is_Some (bbox r)))
  || negb (draw_ok r)
  || negb (save_ok r).

Definition is_image_request (e : event) : bool :=
  match e with EImageRequest _ => true | _ => false end.
Definition is_open_image (e : event) : bool :=
  match e with EOpenImage _ => true | _ => false end.
Definition is_background_write (e : event) : bool :=
  match e with
  | EWrite _ (Background _) | EWrite _ (Placeholder _) => true
  | _ => false
  end.
Definition is_overlay_write (e : event) : bool :=
  match e with EWrite _ (Overlaid _ _ _ _ _) => true | _ => false end.
Definition is_chat (e : event) : bool :=
  match e with EChat _ => true | _ => false end.

Fixpoint count (f : event → bool) (l : list event) : nat :=
  match l with
  | [] => 0
  | e :: l' => (if f e then 1 else 0) + count f l'
  end.

Definition written_path (e : event) : option string :=
  match e with EWrite p _ => Some p | _ => None end.

(** The path of the last write of a trace that satisfies [f]. *)
Fixpoint last_write (f : event → bool) (l : list event) : option string :=
  match l with
  | [] => None
  | e :: l' =>
      match last_write f l' with
      | Some p => Some p
      | None => if f e then written_path e else None
      end
  end.

(** What one background generation leaves in the trace. *)
Definition one_background (new : list event) (out : string) : Prop :=
  count is_image_request new = 1%nat ∧
  count is_background_write new = 1%nat ∧
  count is_open_image new = 0%nat ∧
  count is_overlay_write new = 0%nat ∧
  last_write is_background_write new = Some out ∧
  last_write is_overlay_write new = None.

(** Worlds with a finite script: after the script, every request fails. *)
Definition scripted {A} (xs : list A) (dflt : A) : nat → A :=
  λ n, default dflt (xs !! n).

Definition broken_renderer : render_env :=
  {| open_ok := false; img_size := (0, 0); font_exists := λ _, false;
     truetype_ok := λ _, false; default_font_ok := false; bbox := None;
     draw_ok := false; save_ok := false |}.

(** A renderer on which everything works, on a 1792x1024 image, with the
    first font of the list installed. *)
Definition working_renderer : render_env :=
  {| open_ok := true; img_size := (1792, 1024);
     font_exists := λ p, bool_decide (p = "/usr/share/fonts/truetype/dejavu/DejaVuSans-Bold.ttf");
     truetype_ok := λ _, true; default_font_ok := true;
     bbox := Some (0, 10, 600, 130); draw_ok := true; save_ok := true |}.

(** The same renderer with a disk that refuses the final image. *)
Definition full_disk_renderer : render_env :=
  {| open_ok := true; img_size := (1792, 1024);
     font_exists := font_exists working_renderer;
     truetype_ok := λ _, true; default_font_ok := true;
     bbox := Some (0, 10, 600, 130); draw_ok := true; save_ok := false |}.

Definition session (h : gmap loc dict) (profile : pyval)
    (replies : list reply) (imgs : list image_reply)
    (rends : list render_env) (times : list string) : world :=
  {| heap := h; self_brand_profile := profile; log := [];
     chat := scripted replies ApiError;
     images := scripted imgs SynthError;
     renders := scripted rends broken_renderer;
     clock := scripted times "20240101_000000";
     web := scripted [] None;
     fs := λ _, true |}.

(** The world after one chat-completion request made for [p]. *)
Definition after_chat (p : purpose) (w : world) : world :=
  {| heap := heap w; self_brand_profile := self_brand_profile w;
     log := log w ++ [EChat p]; chat := shift (chat w); images := images w;
     renders := renders w; clock := clock w; web := web w; fs := fs w |}.

(** The record [_improve_post] builds from the model's object [m], the
    post [p] it improves and the critique's score. *)
Definition improved (m p : dict) (score : pyval) : dict :=
  <["critique_score" := score]>
  (<["variation_number" := dict_get p "variation_number"]>
  (<["intent" := dict_get p "intent"]>
  (<["platform" := dict_get p "platform"]> m))).

(** The record [generate_variations] makes of the model's [i]-th entry
    (counting from 0). *)
Definition variation (platform intent : string) (i : nat) (d : dict) : dict :=
  <["variation_number" := VInt (Z.of_nat i + 1)]>
  (<["intent" := VStr intent]>
  (<["platform" := VStr platform]> d)).

Definition is_dict (v : pyval) : bool :=
  match v with VDict _ => true | _ => false end.

(** The requests of [n] completed rounds of the feedback loop. *)
Fixpoint round_trace (n : nat) : list event :=
  match n with
  | O => []
  | S n' => EChat Critique :: EChat Improve :: round_trace n'
  end.

Definition metadata_keys : list string :=
  ["platform"; "intent"; "variation_number"; "critique_score"].

(** Every step of the overlay rendering works. *)
Definition render_works (r : render_env) : bool := negb (render_fails r).

(** The font [add_text_overlay] ends up drawing with. *)
Definition chosen_font (r : render_env) : font :=
  default DefaultFont (pick_font r font_paths).

Definition obj (kvs : list (string * pyval)) : pyval := VDict (list_to_map kvs).

(** The fields of an object. *)
Definition fields (v : pyval) : dict :=
  match v with VDict m => m | _ => ∅ end.

(** *** Sample sessions *)

(** Stand-ins for the two helpers [image_generator.py] does not define. *)
Definition color_names_stub : pyval → res pyval :=
  λ _, Ret (str_list ["blue"; "green"]).
Definition placeholder_stub : string → pyval → string :=
  λ dims _, "placeholder_" +:+ dims +:+ ".png".

(** [_hex_to_color_names] as [image_generator.py] has it: no class
    defines the method, so looking it up on [self] raises
    [AttributeError]. *)
Definition helper_undefined : pyval → res pyval :=
  λ _, Raise AttributeError.

Definition launch_post : dict := list_to_map [
  ("caption", VStr "We launch today.");
  ("overlay_text", VStr "Launch day");
  ("hashtags", str_list ["launch"; "ai"]);
  ("cta", VStr "Join us");
  ("hook", VStr "Today is the day");
  ("image_description", VStr "A rocket at dawn");
  ("platform", VStr "linkedin");
  ("intent", VStr "Announce launch");
  ("variation_number", VInt 1)].

Definition one_post : gmap loc dict := {[ 0%nat := launch_post ]}.

(** Content as the model sends it: it names a platform of its own. *)
Definition model_post (caption : string) : pyval := obj [
  ("caption", VStr caption);
  ("overlay_text", VStr "Lift-off");
  ("hashtags", str_list ["launch"]);
  ("cta", VStr "Register now");
  ("hook", VStr "Ready?");
  ("image_description", VStr "A launch pad");
  ("platform", VStr "tiktok");
  ("intent", VStr "Sell shoes")].

Definition good_critique : pyval := obj [
  ("overall_score", VFloat (Q2Qc (17 # 2)));
  ("weaknesses", str_list ["Weak hook"]);
  ("specific_improvements", str_list ["Open with a question"]);
  ("priority_fix", VStr "Rewrite the hook")].

(** A profile that parses but has one group only. *)
Definition partial_profile : pyval :=
  obj [("brand_voice", obj [("tone", VStr "casual")])].

(** The refinement request fails. *)
Definition w_refine_fails : world :=
  session one_post _default_brand_profile [ApiError] [] [] [].

(** The refinement request yields new content. *)
Definition w_refine_ok : world :=
  session one_post _default_brand_profile
    [Parsed (model_post "We launch today, join us.")] [ImageOk]
    [working_renderer] ["20240101_120000"; "20240101_120001"].

(** The same, on a disk that refuses the overlaid image. *)
Definition w_full_disk : world :=
  session one_post _default_brand_profile
    [Parsed (model_post "We launch today, join us.")] [ImageOk]
    [full_disk_renderer] ["20240101_120000"; "20240101_120001"].

(** No profile was set, and the refinement request fails. *)
Definition w_unset : world := session one_post VNone [ApiError] [] [] [].

(** Two rounds: critique, improvement, critique, failed improvement. *)
Definition w_two_rounds : world :=
  session one_post _default_brand_profile
    [Parsed good_critique; Parsed (model_post "Better."); BadJson; ApiError]
    [] [] [].

(** The model sends two posts (three were asked for), and three posts. *)
Definition w_two_variations : world :=
  session ∅ _default_brand_profile
    [Parsed (obj [("posts", VList [model_post "One"; model_post "Two"])])]
    [] [] [].
Definition w_three_variations : world :=
  session ∅ _default_brand_profile
    [Parsed (obj [("posts",
       VList [model_post "One"; model_post "Two"; model_post "Three"])])]
    [] [] [].

(** The analyzer's request yields a partial profile; a request that
    fails. *)
Definition w_partial_profile : world :=
  session ∅ VNone [Parsed partial_profile] [] [] [].
Definition w_offline : world := session ∅ VNone [] [] [] [].

(** A post without a caption, and one with only a caption. *)
Definition no_caption : gmap loc dict :=
  {[ 0%nat := (list_to_map [("overlay_text", VStr "Launch day")] : dict) ]}.
Definition only_caption : gmap loc dict :=
  {[ 0%nat := (list_to_map [("caption", VStr "We launch today.")] : dict) ]}.
Definition w_no_caption : world :=
  session no_caption VNone [] [] [] ["20240101_120000"].
Definition w_only_caption : world :=
  session only_caption VNone [] [] [] ["20240101_120000"].

(** The first critique parses, but to a JSON array. *)
Definition w_array_critique : world :=
  session one_post _default_brand_profile [Parsed (VList [])] [] [] [].

(** The critique request fails, the improvement succeeds. *)
Definition w_critique_down : world :=
  session one_post _default_brand_profile
    [BadJson; Parsed (model_post "Better.")] [] [] [].

(** The model sends one good post and one string. *)
Definition w_spoiled_batch : world :=
  session ∅ _default_brand_profile
    [Parsed (obj [("posts", VList [model_post "One"; VStr "oops"])])] [] [] [].

(** The refinement returns the caption it was given. *)
Definition w_same_caption : world :=
  session one_post _default_brand_profile
    [Parsed (model_post "We launch today.")] [] [] [].

(** A post whose caption is a number. *)
Definition numeric_caption : gmap loc dict :=
  {[ 0%nat := (list_to_map [("caption", VInt 5)] : dict) ]}.
Definition w_numeric_caption : world :=
  session numeric_caption VNone [] [] [] ["20240101_120000"].

(** A whole generation request: one variation, one good round of
    feedback, one failed round, an image and its overlay. *)
Definition w_full_run : world :=
  session ∅ _default_brand_profile
    [Parsed (obj [("posts", VList [model_post "One"])]);
     Parsed good_critique; Parsed (model_post "Better."); BadJson; ApiError]
    [ImageOk] [working_renderer] ["20240101_120000"; "20240101_120001"].

Arguments pick_font : simpl never.
Arguments path_join : simpl never.
Arguments improvement_prompt : simpl never.
Arguments _build_dalle_prompt : simpl never.
Arguments _get_image_dimensions : simpl never.
Arguments _build_generation_prompt : simpl never.

Ltac msimpl :=
  repeat (progress (unfold mbind, mret, M_bind, M_ret, res_mbind, res_ret,
            bind, ret, raise, lift, try_except, emit, next_chat, next_image,
            next_render, now, next_web, next_fs, fs_step, makedirs, open_w,
            write_close, load, alloc, store, with_heap,
            set_brand_profile, get_brand_profile, chat_json, res_bind in *;
          cbn in *)).

(** ** Dictionaries *)

Lemma dict_get_insert_eq (d : dict) k v : dict_get (<[k := v]> d) k = v.
Proof. unfold dict_get. by rewrite lookup_insert_eq. Qed.

Lemma dict_get_insert_ne (d : dict) k k' v :
  k ≠ k' → dict_get (<[k := v]> d) k' = dict_get d k'.
Proof. intros. unfold dict_get. by rewrite lookup_insert_ne. Qed.

(** ** Equality of values *)

Lemma pyval_size_entry (m : dict) k v :
  m !! k = Some v → (pyval_size v < pyval_size (VDict m))%nat.
Proof.
  intros Hk. cbn.
  rewrite (map_fold_delete_L _ _ k v m); [lia| |done].
  intros. lia.
Qed.

Lemma Qeq_bool_same x : Qeq_bool x x = true.
Proof. apply Qeq_bool_iff. reflexivity. Qed.

Lemma py_eq_refl_bounded n : ∀ v, (pyval_size v ≤ n)%nat → py_eq v v = true.
Proof.
  induction n as [|n IH]; intros v Hsize.
  - destruct v; cbn in *; try lia; try done; try apply Qeq_bool_same;
      by apply bool_decide_eq_true.
  - destruct v as [|b|z|q|s|l|m]; cbn in *; try done; try apply Qeq_bool_same;
      try by apply bool_decide_eq_true.
    + apply Nat.succ_le_mono in Hsize.
      induction l as [|x l IHl]; [done|].
      rewrite IH by lia. cbn. apply IHl. lia.
    + rewrite bool_decide_eq_true_2 by done. cbn.
      assert (Hall : ∀ k v, m !! k = Some v → py_eq v v = true).
      { intros k v Hk. apply IH.
        pose proof (pyval_size_entry m k v Hk). cbn in *. lia. }
      clear Hsize.
      enough (Hgen : ∀ m', (∀ k v, m' !! k = Some v → m !! k = Some v) →
                map_fold (λ k v acc, acc && match m !! k with
                                            | Some v' => py_eq v v'
                                            | None => false
                                            end) true m' = true).
      { apply Hgen. auto. }
      intros m'.
      apply (map_fold_weak_ind
               (λ r m', (∀ k v, m' !! k = Some v → m !! k = Some v) → r = true)).
      * done.
      * intros i x m0 r Hi IHr Hsub.
        rewrite IHr.
        -- rewrite (Hsub i x) by apply lookup_insert_eq. cbn.
           apply (Hall i), Hsub, lookup_insert_eq.
        -- intros k v Hk. apply Hsub.
           rewrite lookup_insert_ne; [done|]. intros ->. congruence.
Qed.

(** Python's [==] holds between a value and itself (the values of this
    model have no NaN). *)
Lemma py_eq_refl v : py_eq v v = true.
Proof. by apply (py_eq_refl_bounded (pyval_size v)). Qed.

(** ** Refinement of one post *)

Section Refinement.

Implicit Types (w : world) (post : loc) (d : dict).

(** C7.  [refine_with_feedback] never raises.  When the model call fails
    (the request errors, or no JSON can be read from the response) it
    returns the input post itself, with the heap as it was; when the call
    yields an object, the new record carries the platform and the intent of
    the original post, whatever the model put under these keys. *)
Theorem refine_with_feedback_contract w post fb profile :
  is_ret (refine_with_feedback post fb profile w).1 = true ∧
  (call_failed (chat w 0%nat) = true →
     (refine_with_feedback post fb profile w).1 = Ret post ∧
     heap (refine_with_feedback post fb profile w).2 = heap w) ∧
  (∀ m, chat w 0%nat = Parsed (VDict m) →
     ∃ l, (refine_with_feedback post fb profile w).1 = Ret l ∧
          heap (refine_with_feedback post fb profile w).2 !! l =
            Some (<["intent" := dict_get (heap w !!! post) "intent"]>
                  (<["platform" := dict_get (heap w !!! post) "platform"]> m)) ∧
          dict_get (heap (refine_with_feedback post fb profile w).2 !!! l) "platform"
            = dict_get (heap w !!! post) "platform" ∧
          dict_get (heap (refine_with_feedback post fb profile w).2 !!! l) "intent"
            = dict_get (heap w !!! post) "intent").
Proof.
  unfold refine_with_feedback. msimpl.
  destruct (chat w 0%nat) as [| |v] eqn:Hreply; msimpl.
  - repeat split; auto. intros m Hm; discriminate.
  - repeat split; auto. intros m Hm; discriminate.
  - destruct v; msimpl; (split; [reflexivity|]);
      (split; [intros Hf; discriminate|]); intros m' Hm; try discriminate.
    injection Hm as ->.
    exists (fresh (dom (heap w))). split; [reflexivity|].
    rewrite lookup_total_insert_eq, lookup_insert_eq.
    split; [reflexivity|].
    rewrite dict_get_insert_ne, !dict_get_insert_eq by done. done.
Qed.

Lemma refine_with_feedback_step w post d fb profile :
  heap w !! post = Some d →
  ∃ l w1, refine_with_feedback post fb profile w = (Ret l, w1) ∧
          log w1 = (log w ++ [EChat Refine])%list ∧
          heap w1 !! post = Some d ∧
          self_brand_profile w1 = self_brand_profile w.
Proof.
  intros Hlive. unfold refine_with_feedback. msimpl.
  destruct (chat w 0%nat) as [| |v]; msimpl; [eauto 10..|].
  destruct v; msimpl; eauto 10.
  eexists _, _. split; [reflexivity|]. cbn.
  rewrite lookup_insert_ne; [done|].
  intros Heq. apply (is_fresh (dom (heap w))). rewrite Heq.
  apply elem_of_dom. eauto.
Qed.

End Refinement.

(** ** The feedback loop *)

Section FeedbackLoop.

Implicit Types (w : world) (post : loc) (d : dict).

Lemma fresh_loc_not_live w post d :
  heap w !! post = Some d → fresh (dom (heap w)) ≠ post.
Proof.
  intros Hlive Heq.
  apply (is_fresh (dom (heap w))). rewrite Heq.
  apply elem_of_dom. by exists d.
Qed.

(** C9.  With [iterations=0] the loop makes no model call and returns a copy
    of the input post: a new object holding the same record, while the
    caller's object keeps its record. *)
Theorem iterate_zero_identity w post d profile platform :
  heap w !! post = Some d →
  ∃ copy w',
    iterate post profile platform 0 w = (Ret copy, w') ∧
    copy ≠ post ∧
    heap w' !! copy = Some d ∧
    heap w' !! post = Some d ∧
    log w' = log w ∧
    chat w' = chat w.
Proof.
  intros Hlive.
  pose proof (fresh_loc_not_live w post d Hlive) as Hfresh.
  unfold iterate. msimpl.
  eexists _, _. split; [reflexivity|]. cbn.
  rewrite (lookup_total_correct _ _ _ Hlive).
  rewrite lookup_insert_eq, lookup_insert_ne by done.
  auto.
Qed.

Lemma critique_post_run w post profile platform :
  _critique_post post profile platform w
  = (Ret (critique_of (chat w 0%nat)), after_chat Critique w).
Proof.
  unfold _critique_post. msimpl.
  by destruct (chat w 0%nat).
Qed.

Lemma improvement_prompt_dict critique :
  improvement_prompt critique = Ret tt → ∃ c, critique = VDict c.
Proof. destruct critique; try discriminate. eauto. Qed.

(** What [_improve_post] does, by cases on the prompt and on the reply. *)
Lemma improve_post_run w post critique profile platform :
  _improve_post post critique profile platform w =
  match improvement_prompt critique with
  | Raise e => (Raise e, w)
  | Ret _ =>
      match chat w 0%nat, critique with
      | Parsed (VDict m), VDict c =>
          (Ret (fresh (dom (heap w))),
           with_heap (<[fresh (dom (heap w)) :=
                          improved m (heap w !!! post) (dict_get c "overall_score")]>
                        (heap w))
                     (after_chat Improve w))
      | _, _ => (Ret post, after_chat Improve w)
      end
  end.
Proof.
  unfold _improve_post. msimpl.
  destruct (improvement_prompt critique) as [[]|e] eqn:Hprompt; [|done].
  destruct (improvement_prompt_dict _ Hprompt) as [c ->].
  destruct (chat w 0%nat) as [| |v]; msimpl; try done.
  by destruct v.
Qed.

(** One improvement keeps the metadata of the post, whether the model
    call succeeds or not. *)
Lemma improve_post_metadata w post critique profile platform l w' k :
  k ∈ ["platform"; "intent"; "variation_number"] →
  _improve_post post critique profile platform w = (Ret l, w') →
  dict_get (heap w' !!! l) k = dict_get (heap w !!! post) k.
Proof.
  intros Hk. rewrite improve_post_run.
  destruct (improvement_prompt critique); [|done].
  destruct (chat w 0%nat) as [| |[]], critique;
    intros [= <- <-]; try done; cbn.
  rewrite lookup_total_insert_eq. unfold improved.
  set_unfold in Hk.
  destruct Hk as [->|[->|[->|[]]]];
    repeat (first [ by rewrite dict_get_insert_eq
                  | rewrite dict_get_insert_ne by done ]).
Qed.

Lemma iterate_rounds_metadata n : ∀ w current profile platform l w' k,
  k ∈ ["platform"; "intent"; "variation_number"] →
  iterate_rounds n current profile platform w = (Ret l, w') →
  dict_get (heap w' !!! l) k = dict_get (heap w !!! current) k.
Proof.
  induction n as [|n IH]; intros w current profile platform l w' k Hk; cbn.
  - by intros [= <- <-].
  - unfold mbind, M_bind, bind. rewrite critique_post_run.
    destruct (_improve_post _ _ _ _ _) as [[next|e] w1] eqn:Himprove; [|done].
    intros Hrest. rewrite (IH _ _ _ _ _ _ _ Hk Hrest).
    by apply (improve_post_metadata _ _ _ _ _ _ _ _ Hk Himprove).
Qed.

Lemma iterate_metadata w post profile platform n l w' k :
  k ∈ ["platform"; "intent"; "variation_number"] →
  iterate post profile platform n w = (Ret l, w') →
  dict_get (heap w' !!! l) k = dict_get (heap w !!! post) k.
Proof.
  intros Hk. unfold iterate. msimpl. intros Hrun.
  rewrite (iterate_rounds_metadata _ _ _ _ _ _ _ _ Hk Hrun). cbn.
  by rewrite lookup_total_insert_eq.
Qed.

(** C5.  Two rounds, the first of which succeeds (its critique is an
    object the improvement prompt can be built from, its improvement is an
    object), the second of which gets as far as the improvement request
    and fails there: the loop returns, and what it returns is the post as
    the first round left it, with the first critique's [overall_score] as
    its [critique_score] and the content the first improvement produced. *)
Theorem iterate_second_improve_fails w post profile platform (c1 m1 : dict) :
  chat w 0%nat = Parsed (VDict c1) →
  improvement_prompt (VDict c1) = Ret tt →
  chat w 1%nat = Parsed (VDict m1) →
  improvement_prompt (critique_of (chat w 2%nat)) = Ret tt →
  call_failed (chat w 3%nat) = true →
  ∃ l w1 w2,
    iterate post profile platform 1 w = (Ret l, w1) ∧
    iterate post profile platform 2 w = (Ret l, w2) ∧
    heap w2 = heap w1 ∧
    heap w2 !! l = Some (improved m1 (heap w !!! post) (dict_get c1 "overall_score")) ∧
    dict_get (heap w2 !!! l) "critique_score" = dict_get c1 "overall_score" ∧
    ∀ k, k ∉ ["platform"; "intent"; "variation_number"; "critique_score"] →
         (heap w2 !!! l) !! k = m1 !! k.
Proof.
  intros Hc1 Hp1 Hm1 Hp2 Hfail.
  unfold iterate.
  change (Z.to_nat 1) with 1%nat. change (Z.to_nat 2) with 2%nat.
  cbn [iterate_rounds].
  unfold mbind, M_bind, bind, load, alloc.
  rewrite !critique_post_run, !improve_post_run.
  cbn -[critique_of].
  rewrite Hc1. cbn. rewrite Hp1, Hm1.
  rewrite critique_post_run, improve_post_run.
  cbn -[critique_of].
  rewrite Hp2.
  destruct (chat w 3%nat) as [| |v] eqn:Hr3; try discriminate.
  all: eexists _, _, _; split; [reflexivity|]; split; [reflexivity|]; cbn.
  all: rewrite !lookup_total_insert_eq, !lookup_insert_eq.
  all: repeat split; try done.
  all: try (unfold improved; by rewrite dict_get_insert_eq).
  all: intros k Hk; set_unfold in Hk; unfold improved;
       rewrite !lookup_insert_ne by naive_solver; done.
Qed.

End FeedbackLoop.

(** ** Images *)

Section Images.

Variable _hex_to_color_names : pyval → res pyval.
Variable placeholder_name : string → pyval → string.

Implicit Types (w : world) (post : loc) (d : dict).

Lemma count_app f l1 l2 : count f (l1 ++ l2) = (count f l1 + count f l2)%nat.
Proof. induction l1 as [|e l1 IH]; cbn; [done|]. rewrite IH. lia. Qed.

(** C8.  When a step of the rendering fails, [add_text_overlay] returns
    the path it was given; it has opened the image and written nothing. *)
Theorem add_text_overlay_failure_returns_input w image_path text profile :
  render_fails (renders w 0%nat) = true →
  ∃ w', add_text_overlay image_path text profile w = (Ret image_path, w') ∧
        heap w' = heap w ∧
        log w' = (log w ++ [EOpenImage image_path])%list.
Proof.
  unfold render_fails, add_text_overlay. msimpl.
  destruct (renders w 0%nat) as [op [iw ih] fe tt' df bb dr sv]; cbn.
  destruct op; cbn; [|eauto].
  destruct (pick_font _ _) as [f|]; cbn.
  - destruct bb as [[[[b0 b1] b2] b3]|]; cbn; [|eauto].
    destruct dr; cbn; [|eauto].
    destruct sv; cbn; [done|eauto].
  - destruct df; cbn; [|eauto].
    destruct bb as [[[[b0 b1] b2] b3]|]; cbn; [|eauto].
    destruct dr; cbn; [|eauto].
    destruct sv; cbn; [done|eauto].
Qed.

(** [add_text_overlay] always returns, leaves the heap alone, and either
    hands the input path back or has written one overlaid image. *)
Lemma add_text_overlay_run w image_path text profile :
  ∃ out w',
    add_text_overlay image_path text profile w = (Ret out, w') ∧
    heap w' = heap w ∧ self_brand_profile w' = self_brand_profile w ∧
    ((out = image_path ∧ log w' = (log w ++ [EOpenImage image_path])%list) ∨
     (∃ f x y, log w' = (log w ++ [EOpenImage image_path;
                 EWrite out (Overlaid image_path text f x y)])%list)).
Proof.
  unfold add_text_overlay. msimpl.
  destruct (renders w 0%nat) as [op [iw ih] fe tt' df bb dr sv]; cbn.
  destruct op; cbn; [|eauto 10].
  destruct (pick_font _ _) as [f|]; cbn; [|destruct df; cbn; [|eauto 10]];
    (destruct bb as [[[[b0 b1] b2] b3]|]; cbn; [|eauto 10]);
    (destruct dr; cbn; [|eauto 10]);
    (destruct sv; cbn; [|eauto 10]).
  all: eexists _, _; split; [reflexivity|]; cbn; split; [done|]; split; [done|].
  all: right; eexists _, _, _; by rewrite <- app_assoc.
Qed.

(** [generate_background] leaves the heap alone; if it raises, it does so
    before any request; if it returns, one image was requested and one
    background (the generated one or the placeholder) was written, at the
    path it returns. *)
Lemma generate_background_run w post profile platform r w' :
  generate_background _hex_to_color_names placeholder_name
    post profile platform w = (r, w') →
  heap w' = heap w ∧ self_brand_profile w' = self_brand_profile w ∧
  match r with
  | Raise _ => log w' = log w
  | Ret out => ∃ new, log w' = (log w ++ new)%list ∧ one_background new out
  end.
Proof.
  unfold generate_background, _create_placeholder_image, one_background. msimpl.
  destruct (_get_image_dimensions platform) as [dims|e]; cbn;
    [|by intros [= <- <-]].
  destruct (_build_dalle_prompt _ _ _ _) as [[]|e]; cbn;
    [|by intros [= <- <-]].
  destruct (images w 0%nat); cbn; intros [= <- <-]; cbn;
    (split; [done|]); (split; [done|]);
    eexists; (split; [by rewrite <- ?app_assoc|]); done.
Qed.

(** The image stage of [generate_post] keeps every field of the post but
    [image_path]. *)
Lemma compose_image_fields w post profile platform l w' k :
  k ≠ "image_path" →
  compose_image _hex_to_color_names placeholder_name profile platform post w
    = (Ret l, w') →
  l = post ∧ (heap w' !!! l) !! k = (heap w !!! post) !! k.
Proof.
  intros Hk. unfold compose_image.
  unfold mbind, M_bind, bind.
  destruct (generate_background _ _ _ _ _ _) as [[bg|e] w1] eqn:Hbg; [|done].
  apply generate_background_run in Hbg as (Hheap1 & _ & _).
  unfold load at 1.
  destruct (add_text_overlay_run w1 bg
              (dict_get_or (heap w1 !!! post) "overlay_text" (VStr "")) profile)
    as (out & w2 & -> & Hheap2 & _).
  unfold load, store, ret. cbn. intros [= <- <-]. cbn.
  split; [done|].
  rewrite lookup_total_insert_eq, lookup_insert_ne by done.
  by rewrite Hheap2, Hheap1.
Qed.

End Images.

(** ** Metadata *)

(** C4.  A post that went through the feedback loop, and a post that went
    through image composition, has the platform and the intent it had
    before, for any number of rounds and whatever the model, the image
    service and the renderer did. *)
Theorem metadata_immutable hex ph w post profile platform iterations l w' :
  iterate post profile platform iterations w = (Ret l, w') ∨
  compose_image hex ph profile platform post w = (Ret l, w') →
  dict_get (heap w' !!! l) "platform" = dict_get (heap w !!! post) "platform" ∧
  dict_get (heap w' !!! l) "intent" = dict_get (heap w !!! post) "intent".
Proof.
  intros [Hrun|Hrun].
  - split; eapply iterate_metadata; try exact Hrun; set_solver.
  - unfold dict_get.
    destruct (compose_image_fields hex ph _ _ _ _ _ _ "platform" ltac:(done) Hrun) as [_ ->].
    by destruct (compose_image_fields hex ph _ _ _ _ _ _ "intent" ltac:(done) Hrun) as [_ ->].
Qed.

(** ** The orchestrator *)

Section Orchestrator.

Variable _hex_to_color_names : pyval → res pyval.
Variable placeholder_name : string → pyval → string.

Implicit Types (w : world) (post : loc) (d : dict).

Lemma last_write_app f l1 l2 :
  last_write f (l1 ++ l2) =
  match last_write f l2 with
  | Some p => Some p
  | None => last_write f l1
  end.
Proof.
  induction l1 as [|e l1 IH]; cbn.
  - by destruct (last_write f l2).
  - rewrite IH. by destruct (last_write f l2).
Qed.

(** Regeneration, for any behaviour of the colour helper.  A refinement
    that returns and leaves the caption equal (Python's [==]) to the
    original's touches no image: after the model request the trace is
    over.  One that changes the caption and returns has requested one
    image, written one background (generated or placeholder), opened it
    once for the overlay, and set [image_path] to what [add_text_overlay]
    returned: the one overlaid image it wrote, or, when the rendering
    failed and no overlaid image was written, the background. *)
Lemma refine_post_regeneration w post d fb l w' :
  heap w !! post = Some d →
  refine_post _hex_to_color_names placeholder_name post fb w = (Ret l, w') →
  ∃ new, log w' = (log w ++ EChat Refine :: new)%list ∧
    if py_eq (dict_get (heap w' !!! l) "caption") (dict_get d "caption")
    then new = []
    else
      count is_image_request new = 1%nat ∧
      count is_background_write new = 1%nat ∧
      count is_open_image new = 1%nat ∧
      ∃ bg, last_write is_background_write new = Some bg ∧
        ((count is_overlay_write new = 1%nat ∧
          ∃ final, last_write is_overlay_write new = Some final ∧
                   dict_get (heap w' !!! l) "image_path" = VStr final) ∨
         (count is_overlay_write new = 0%nat ∧
          dict_get (heap w' !!! l) "image_path" = VStr bg)).
Proof.
  intros Hlive. unfold refine_post.
  unfold mbind, M_bind, bind, get_brand_profile.
  destruct (refine_with_feedback_step w post d fb (self_brand_profile w) Hlive)
    as (r & w1 & -> & Hlog1 & Hlive1 & Hprofile1).
  unfold load at 1 2. rewrite (lookup_total_correct _ _ _ Hlive1).
  destruct (py_eq (dict_get (heap w1 !!! r) "caption") (dict_get d "caption"))
    eqn:Hcaption; cbn.
  { intros [= <- <-]. exists []. by rewrite Hcaption, Hlog1. }
  destruct (generate_background _ _ _ _ _ _) as [[bg|e] w2] eqn:Hbg; [|done].
  apply generate_background_run in Hbg
    as (Hheap2 & _ & new & Hlog2 & Hreq & Hbgw & Hopen & Hovl & Hlastbg & Hlastovl).
  destruct (add_text_overlay_run w2 bg
              (dict_get_or (heap w2 !!! r) "overlay_text" (VStr ""))
              (self_brand_profile w1))
    as (out & w3 & -> & Hheap3 & _ & Hovlrun).
  unfold ret. cbn. intros [= <- <-]. cbn.
  rewrite lookup_total_insert_eq, dict_get_insert_ne, dict_get_insert_eq by done.
  rewrite Hheap3, Hheap2, Hcaption.
  destruct Hovlrun as [[-> Hlog3]|(f & x & y & Hlog3)].
  - exists (new ++ [EOpenImage bg])%list.
    rewrite Hlog3, Hlog2, Hlog1, <- !app_assoc. split; [done|].
    rewrite !count_app, !last_write_app, Hreq, Hbgw, Hopen, Hovl, Hlastbg. cbn.
    repeat split; try done. exists bg. split; [done|]. by right.
  - exists (new ++ [EOpenImage bg; EWrite out (Overlaid bg
              (dict_get_or (heap w1 !!! r) "overlay_text" (VStr "")) f x y)])%list.
    rewrite Hlog3, Hlog2, Hlog1, Hheap2, <- !app_assoc. split; [done|].
    rewrite !count_app, !last_write_app, Hreq, Hbgw, Hopen, Hovl, Hlastbg. cbn.
    repeat split; try done. exists bg. split; [done|]. left. eauto.
Qed.

End Orchestrator.

(** ** Variations *)

Section Variations.

Implicit Types (w : world) (d : dict).

Lemma attach_metadata_run platform intent items : ∀ idx w ls w',
  attach_metadata platform intent idx items w = (Ret ls, w') →
  length ls = length items ∧
  log w' = log w ∧ chat w' = chat w ∧
  (∀ l, l ∈ dom (heap w) → heap w' !! l = heap w !! l) ∧
  ∀ i l, ls !! i = Some l →
    ∃ d, items !! i = Some (VDict d) ∧
         heap w' !! l = Some (variation platform intent (idx + i) d).
Proof.
  induction items as [|v rest IH]; intros idx w ls w'; cbn.
  - intros [= <- <-]. repeat split; try done.
  - unfold mbind, M_bind, bind, lift.
    destruct v as [| | | | | |d0]; cbn; try done.
    destruct (attach_metadata _ _ _ rest _) as [[ls'|e] w1] eqn:Hrest; [|done].
    unfold ret. intros [= <- <-].
    apply IH in Hrest as (Hlen & Hlog & Hchat & Hkeep & Hposts). cbn in *.
    assert (Hfresh : fresh (dom (heap w)) ∉ dom (heap w)) by apply is_fresh.
    repeat split; try done.
    + by rewrite Hlen.
    + intros l Hl. rewrite Hkeep.
      * rewrite lookup_insert_ne; [done|]. by intros <-.
      * rewrite dom_insert_L. apply elem_of_union. by right.
    + intros [|i] l; cbn.
      * intros [= <-]. exists d0. split; [done|].
        rewrite Hkeep.
        -- by rewrite lookup_insert_eq, Nat.add_0_r.
        -- rewrite dom_insert_L. apply elem_of_union. left.
           by apply elem_of_singleton.
      * intros Hl. destruct (Hposts _ _ Hl) as (d & Hd & Hheap).
        exists d. split; [done|]. rewrite Hheap. do 2 f_equal. lia.
Qed.

(** C1, as the code has it.  When the [try] block of
    [generate_variations] completes and hands back a list, that list has
    one post per entry of the model's ["posts"] array, in order: as many
    as the model sent, whatever [num_variations] was.  The [i]-th post is
    the model's [i]-th entry with [platform] and [intent] set to the
    arguments and [variation_number] set to [i], counting from 1. *)
Theorem generate_variations_contract w profile intent platform
    constraints rag_elements num_variations ps w' :
  generate_variations profile intent platform constraints rag_elements
    num_variations w = (Ret (Posts ps), w') →
  is_ret (generate_variations_try intent platform w).1 = true →
  ∃ m items,
    chat w 0%nat = Parsed (VDict m) ∧
    m !! "posts" = Some (VList items) ∧
    length ps = length items ∧
    ∀ i l, ps !! i = Some l →
      ∃ d, items !! i = Some (VDict d) ∧
           heap w' !! l = Some (variation platform intent i d) ∧
           dict_get (variation platform intent i d) "variation_number"
             = VInt (Z.of_nat i + 1) ∧
           dict_get (variation platform intent i d) "platform" = VStr platform ∧
           dict_get (variation platform intent i d) "intent" = VStr intent.
Proof.
  unfold generate_variations.
  unfold mbind at 1, M_bind at 1, bind at 1, lift at 1.
  destruct (_build_generation_prompt _ _ _ _ _ _ _) as [[]|e]; [|done].
  unfold try_except.
  destruct (generate_variations_try intent platform w) as [[v|e] w1] eqn:Htry;
    [|done].
  intros [= -> ->] _. revert Htry.
  unfold generate_variations_try. msimpl.
  destruct (chat w 0%nat) as [| |[| | | | | |m]]; msimpl; try done.
  unfold dict_item. destruct (m !! "posts") as [posts|] eqn:Hposts; cbn; [|done].
  destruct posts as [| | | | |items|]; cbn; try done.
  - destruct (attach_metadata _ _ _ _ _) as [[ls|e] w2]; cbn; done.
  - destruct (attach_metadata _ _ _ _ _) as [[ls|e] w2] eqn:Hattach; cbn; [|done].
    intros [= <- <-].
    apply attach_metadata_run in Hattach as (Hlen & _ & _ & _ & Hps).
    exists m, items. repeat split; try done.
    intros i l Hl. destruct (Hps _ _ Hl) as (d & Hd & Hheap).
    exists d. repeat split; try done.
    all: unfold variation;
      repeat (first [ by rewrite dict_get_insert_eq
                    | rewrite dict_get_insert_ne by done ]).
  - destruct (attach_metadata _ _ _ _ _) as [[ls|e] w2]; cbn; done.
Qed.

End Variations.

(** ** The analyzer *)

(** C3, as the code has it.  [analyze] never raises.  When the request
    errors or no JSON can be read from the response, it returns the fixed
    default profile; when the response parses, it returns what was parsed,
    as it is. *)
Theorem analyze_fallback w website_url existing_posts brand_guidelines :
  ∃ p w',
    analyze website_url existing_posts brand_guidelines w = (Ret p, w') ∧
    (call_failed (chat w 0%nat) = true → p = _default_brand_profile) ∧
    (∀ v, chat w 0%nat = Parsed v → p = v).
Proof.
  unfold analyze, scrape_website.
  destruct website_url as [url|]; [destruct (bool_decide (url = ""))|];
    msimpl; try destruct (web w 0%nat); msimpl;
    destruct (chat w 0%nat); msimpl;
    eexists _, _; (split; [reflexivity|]); split; congruence.
Qed.

(** ** Saving a post *)

(** C10, as the code has it.  Once the output directory has been created
    and the caption file opened, a post without a ['caption'] makes
    [save_post] raise [KeyError]: the metadata file is neither created nor
    written.  With a caption string and a file system that goes on
    working, missing ['platform'] and ['intent'] are written as [None] and
    a missing ['overlay_text'] as the empty string, and the two files are
    named after the same time stamp. *)
Theorem save_post_contract w post d output_dir :
  heap w !! post = Some d →
  output_dir ≠ "" →
  fs w 0%nat = true →
  fs w 1%nat = true →
  let base_filename := "post_" +:+ clock w 0%nat in
  let caption_path := path_join output_dir (base_filename +:+ "_caption.txt") in
  let metadata_path := path_join output_dir (base_filename +:+ "_metadata.json") in
  (d !! "caption" = None →
     ∃ w', save_post post output_dir w = (Raise KeyError, w') ∧
           log w' = (log w ++ [EMakedirs output_dir; ECreate caption_path])%list) ∧
  (∀ s, d !! "caption" = Some (VStr s) →
     fs w 2%nat = true → fs w 3%nat = true → fs w 4%nat = true →
     ∃ w' meta,
       save_post post output_dir w = (Ret output_dir, w') ∧
       log w' = (log w ++ [EMakedirs output_dir;
                           ECreate caption_path;
                           EWrite caption_path (Text s);
                           ECreate metadata_path;
                           EWrite metadata_path (Json (VDict meta))])%list ∧
       meta !! "platform" = Some (default VNone (d !! "platform")) ∧
       meta !! "intent" = Some (default VNone (d !! "intent")) ∧
       meta !! "timestamp" = Some (VStr (clock w 0%nat)) ∧
       meta !! "caption" = Some (VStr s) ∧
       meta !! "overlay_text" = Some (default (VStr "") (d !! "overlay_text"))).
Proof.
  intros Hlive Hdir Hmk Hopen. cbn zeta. unfold save_post, dict_item. msimpl.
  rewrite (bool_decide_eq_false_2 _ Hdir). msimpl.
  rewrite Hmk. msimpl.
  change (shift (fs w) 0%nat) with (fs w 1%nat). rewrite Hopen. msimpl.
  rewrite (lookup_total_correct _ _ _ Hlive).
  split.
  - intros ->. eexists. split; [reflexivity|]. cbn. by rewrite <- !app_assoc.
  - intros s Hcaption Hw1 Ho2 Hw2. rewrite Hcaption. msimpl.
    change (shift (shift (fs w)) 0%nat) with (fs w 2%nat). rewrite Hw1. msimpl.
    change (shift (shift (shift (fs w))) 0%nat) with (fs w 3%nat).
    rewrite Ho2. msimpl.
    rewrite !(lookup_total_correct _ _ _ Hlive), Hcaption. msimpl.
    change (shift (shift (shift (shift (fs w)))) 0%nat) with (fs w 4%nat).
    rewrite Hw2. msimpl.
    eexists _, _. split; [reflexivity|]. cbn.
    split; [by rewrite <- !app_assoc|].
    repeat split; reflexivity.
Qed.

(** ** The profile precondition *)

(** X1.  [generate_post] checks the profile first: with none set (or an empty
    one) it raises [ValueError] and nothing has happened. *)
Lemma generate_post_requires_profile hex ph w intent platform constraints rag :
  py_truthy (self_brand_profile w) = false →
  generate_post hex ph intent platform constraints rag w = (Raise ValueError, w).
Proof.
  intros Hunset. unfold generate_post. msimpl. by rewrite Hunset.
Qed.

(** C2 at the failing input.  With no profile set, [refine_post] raises
    nothing: it sends the refinement request and, the request failing,
    returns the post it was given. *)
Theorem refine_post_unset_profile_proceeds :
  self_brand_profile w_unset = VNone ∧
  refine_post color_names_stub placeholder_stub 0%nat "Make it shorter" w_unset
    = (Ret 0%nat, after_chat Refine w_unset) ∧
  log (after_chat Refine w_unset) = [EChat Refine].
Proof. repeat split; vm_compute; reflexivity. Qed.

(** ** Runs *)

Lemma refine_with_feedback_contract_witness :
  call_failed (chat w_refine_fails 0%nat) = true ∧
  (refine_with_feedback 0%nat "Shorter" _default_brand_profile w_refine_fails).1
    = Ret 0%nat.
Proof.
  split; [reflexivity|].
  apply (refine_with_feedback_contract w_refine_fails 0%nat "Shorter"
           _default_brand_profile).
  reflexivity.
Defined.

Lemma iterate_zero_identity_witness :
  ∃ copy w',
    iterate 0%nat _default_brand_profile "linkedin" 0 w_refine_fails = (Ret copy, w') ∧
    copy ≠ 0%nat ∧
    heap w' !! copy = Some launch_post ∧
    heap w' !! 0%nat = Some launch_post ∧
    log w' = log w_refine_fails ∧
    chat w' = chat w_refine_fails.
Proof.
  apply (iterate_zero_identity w_refine_fails 0%nat launch_post).
  reflexivity.
Defined.

Lemma iterate_second_improve_fails_witness :
  ∃ l w1 w2,
    iterate 0%nat _default_brand_profile "linkedin" 1 w_two_rounds = (Ret l, w1) ∧
    iterate 0%nat _default_brand_profile "linkedin" 2 w_two_rounds = (Ret l, w2) ∧
    dict_get (heap w2 !!! l) "critique_score" = VFloat (Q2Qc (17 # 2)).
Proof.
  destruct (iterate_second_improve_fails w_two_rounds 0%nat
              _default_brand_profile "linkedin"
              (list_to_map [
                 ("overall_score", VFloat (Q2Qc (17 # 2)));
                 ("weaknesses", str_list ["Weak hook"]);
                 ("specific_improvements", str_list ["Open with a question"]);
                 ("priority_fix", VStr "Rewrite the hook")])
              (list_to_map [
                 ("caption", VStr "Better.");
                 ("overlay_text", VStr "Lift-off");
                 ("hashtags", str_list ["launch"]);
                 ("cta", VStr "Register now");
                 ("hook", VStr "Ready?");
                 ("image_description", VStr "A launch pad");
                 ("platform", VStr "tiktok");
                 ("intent", VStr "Sell shoes")])
              eq_refl eq_refl eq_refl eq_refl eq_refl)
    as (l & w1 & w2 & H1 & H2 & _ & _ & Hscore & _).
  exists l, w1, w2. repeat split; [exact H1|exact H2|].
  rewrite Hscore. reflexivity.
Defined.

Lemma add_text_overlay_failure_returns_input_witness :
  ∃ w', add_text_overlay "data/generated_images/bg_1.png" (VStr "Launch day")
          _default_brand_profile w_full_disk
        = (Ret "data/generated_images/bg_1.png", w') ∧
        heap w' = heap w_full_disk ∧
        log w' = (log w_full_disk ++ [EOpenImage "data/generated_images/bg_1.png"])%list.
Proof.
  apply (add_text_overlay_failure_returns_input w_full_disk).
  reflexivity.
Defined.

Lemma metadata_immutable_witness :
  dict_get (heap (iterate 0%nat _default_brand_profile "linkedin" 2 w_two_rounds).2 !!! 2%nat)
    "platform" = VStr "linkedin" ∧
  dict_get (heap (iterate 0%nat _default_brand_profile "linkedin" 2 w_two_rounds).2 !!! 2%nat)
    "intent" = VStr "Announce launch".
Proof.
  apply (metadata_immutable color_names_stub placeholder_stub w_two_rounds 0%nat
           _default_brand_profile "linkedin" 2 2%nat
           (iterate 0%nat _default_brand_profile "linkedin" 2 w_two_rounds).2).
  left. vm_compute. reflexivity.
Defined.

Lemma refine_post_regeneration_witness :
  ∃ new,
    log (refine_post color_names_stub placeholder_stub 0%nat "Add a call to action"
           w_refine_ok).2 = EChat Refine :: new ∧
    count is_background_write new = 1%nat.
Proof.
  destruct (refine_post_regeneration color_names_stub placeholder_stub
              w_refine_ok 0%nat launch_post "Add a call to action" 1%nat
              (refine_post color_names_stub placeholder_stub 0%nat
                 "Add a call to action" w_refine_ok).2
              ltac:(vm_compute; reflexivity) ltac:(vm_compute; reflexivity))
    as (new & Hlog & Hnew).
  exists new. split; [exact Hlog|].
  destruct (py_eq _ _) eqn:Hcaption.
  - exfalso. vm_compute in Hcaption. discriminate.
  - by destruct Hnew as (_ & Hbg & _).
Defined.

Lemma generate_variations_contract_witness :
  ∃ m items,
    chat w_three_variations 0%nat = Parsed (VDict m) ∧
    m !! "posts" = Some (VList items) ∧
    length [0%nat; 1%nat; 2%nat] = length items.
Proof.
  destruct (generate_variations_contract w_three_variations
              _default_brand_profile "Announce launch" "instagram" None None 3
              [0%nat; 1%nat; 2%nat]
              (generate_variations _default_brand_profile "Announce launch"
                 "instagram" None None 3 w_three_variations).2
              ltac:(vm_compute; reflexivity) eq_refl)
    as (m & items & Hreply & Hposts & Hlen & _).
  by exists m, items.
Defined.

Lemma analyze_fallback_witness :
  (analyze None None None w_offline).1 = Ret _default_brand_profile.
Proof.
  destruct (analyze_fallback w_offline None None None)
    as (p & w' & Hrun & Hfail & _).
  rewrite Hrun. cbn. f_equal. apply Hfail. reflexivity.
Defined.

Lemma save_post_contract_witness :
  (∃ w', save_post 0%nat default_output_dir w_no_caption = (Raise KeyError, w') ∧
         log w' = [EMakedirs "data/generated_posts";
                   ECreate "data/generated_posts/post_20240101_120000_caption.txt"]) ∧
  (∃ w' meta,
     save_post 0%nat default_output_dir w_only_caption = (Ret default_output_dir, w') ∧
     log w' = [EMakedirs "data/generated_posts";
               ECreate "data/generated_posts/post_20240101_120000_caption.txt";
               EWrite "data/generated_posts/post_20240101_120000_caption.txt"
                 (Text "We launch today.");
               ECreate "data/generated_posts/post_20240101_120000_metadata.json";
               EWrite "data/generated_posts/post_20240101_120000_metadata.json"
                 (Json (VDict meta))] ∧
     meta !! "platform" = Some VNone ∧
     meta !! "overlay_text" = Some (VStr "")).
Proof.
  split.
  - apply (save_post_contract w_no_caption 0%nat
             (list_to_map [("overlay_text", VStr "Launch day")])
             default_output_dir eq_refl ltac:(discriminate) eq_refl eq_refl).
    reflexivity.
  - destruct (save_post_contract w_only_caption 0%nat
                (list_to_map [("caption", VStr "We launch today.")])
                default_output_dir eq_refl ltac:(discriminate) eq_refl eq_refl)
      as [_ Hok].
    destruct (Hok "We launch today." eq_refl eq_refl eq_refl eq_refl)
      as (w' & meta & Hrun & Hlog & Hplatform & _ & _ & _ & Hoverlay).
    exists w', meta. repeat split; [exact Hrun|exact Hlog|exact Hplatform|exact Hoverlay].
Defined.

(** ** Where the code parts from the specification *)

(** C1 fails on the code: three variations are asked for, the model sends
    two, the call succeeds, and the list has two posts. *)
Lemma generate_variations_count_counterexample :
  ∃ ps w',
    generate_variations _default_brand_profile "Announce launch" "instagram"
      None None 3 w_two_variations = (Ret (Posts ps), w') ∧
    is_ret (generate_variations_try "Announce launch" "instagram"
              w_two_variations).1 = true ∧
    length ps = 2%nat ∧
    Z.of_nat (length ps) ≠ 3.
Proof.
  exists [0%nat; 1%nat],
    (generate_variations _default_brand_profile "Announce launch" "instagram"
       None None 3 w_two_variations).2.
  split; [vm_compute; reflexivity|].
  split; [vm_compute; reflexivity|].
  split; [reflexivity|]. cbn. lia.
Qed.

(** C3 fails on the code: a response that parses but has one group only
    is returned as the profile. *)
Lemma analyze_schema_mismatch_counterexample :
  (analyze None None None w_partial_profile).1 = Ret partial_profile ∧
  partial_profile ≠ _default_brand_profile.
Proof.
  split; [reflexivity|].
  intros Heq.
  apply (f_equal (λ v, match v with
                       | VDict m => bool_decide (is_Some (m !! "visual_identity"))
                       | _ => false
                       end)) in Heq.
  vm_compute in Heq. discriminate.
Qed.

(** With the colour helper supplied and a disk that refuses the overlaid
    image, a changed caption leaves no overlaid image and [image_path] is
    the background. *)
Lemma refine_post_overlay_failure_run :
  ∃ l w',
    refine_post color_names_stub placeholder_stub 0%nat "Add a call to action"
      w_full_disk = (Ret l, w') ∧
    py_eq (dict_get (heap w' !!! l) "caption") (dict_get launch_post "caption")
      = false ∧
    count is_background_write (log w') = 1%nat ∧
    count is_overlay_write (log w') = 0%nat ∧
    dict_get (heap w' !!! l) "image_path"
      = VStr "data/generated_images/bg_20240101_120000.png".
Proof.
  exists 1%nat,
    (refine_post color_names_stub placeholder_stub 0%nat "Add a call to action"
       w_full_disk).2.
  split; [vm_compute; reflexivity|].
  repeat split; vm_compute; reflexivity.
Qed.

(** C6 at the failing input.  The refinement changes the caption, so
    [refine_post] goes on to [generate_background]; building the image
    prompt looks up [_hex_to_color_names], which does not exist:
    [AttributeError] leaves [refine_post] after the one model request, and
    no image has been requested, let alone written. *)
Theorem refine_post_changed_caption_raises :
  py_eq (dict_get (fields (model_post "We launch today, join us.")) "caption")
        (dict_get launch_post "caption") = false ∧
  (refine_post helper_undefined placeholder_stub 0%nat "Add a call to action"
     w_refine_ok).1 = Raise AttributeError ∧
  log (refine_post helper_undefined placeholder_stub 0%nat "Add a call to action"
         w_refine_ok).2 = [EChat Refine] ∧
  count is_image_request
    (log (refine_post helper_undefined placeholder_stub 0%nat
            "Add a call to action" w_refine_ok).2) = 0%nat ∧
  count is_background_write
    (log (refine_post helper_undefined placeholder_stub 0%nat
            "Add a call to action" w_refine_ok).2) = 0%nat.
Proof. repeat split; vm_compute; reflexivity. Qed.

(** C10 fails on the code: the post has no caption, but with the empty
    output directory [os.makedirs] raises [FileNotFoundError] first, and
    no file has been opened. *)
Lemma save_post_empty_directory_counterexample :
  (heap w_no_caption !!! 0%nat) !! "caption" = None ∧
  save_post 0%nat "" w_no_caption = (Raise FileNotFoundError, w_no_caption) ∧
  FileNotFoundError ≠ KeyError.
Proof.
  split; [reflexivity|]. split; [reflexivity|discriminate].
Qed.

(** * Further properties of the code *)

(** ** The feedback loop, round by round *)

Section Rounds.

Implicit Types (w : world) (post : loc) (d : dict).

Lemma default_critique_usable : improvement_prompt _default_critique = Ret tt.
Proof. reflexivity. Qed.

Lemma iterate_rounds_trace n : ∀ w current profile platform l w',
  iterate_rounds n current profile platform w = (Ret l, w') →
  log w' = (log w ++ round_trace n)%list.
Proof.
  induction n as [|n IH]; intros w current profile platform l w'; cbn.
  - intros [= <- <-]. by rewrite app_nil_r.
  - unfold mbind, M_bind, bind. rewrite critique_post_run, improve_post_run.
    destruct (improvement_prompt _); [|done].
    destruct (chat (after_chat Critique w) 0%nat) as [| |[]],
             (critique_of (chat w 0%nat));
      intros Hrest; apply IH in Hrest; rewrite Hrest; cbn;
      by rewrite <- !app_assoc.
Qed.

Lemma round_trace_requests n : count is_chat (round_trace n) = (2 * n)%nat.
Proof. induction n as [|n IH]; cbn; [done|]. rewrite IH. lia. Qed.

(** X7.  Every round that completes sends exactly two requests, a critique
    and then an improvement, and the loop does nothing else to the outside
    world: after [iterations] rounds the trace has grown by that many
    critique/improve pairs. *)
Theorem iterate_two_requests_per_round w post profile platform iterations l w' :
  iterate post profile platform iterations w = (Ret l, w') →
  log w' = (log w ++ round_trace (Z.to_nat iterations))%list ∧
  count is_chat (round_trace (Z.to_nat iterations))
    = (2 * Z.to_nat iterations)%nat.
Proof.
  unfold iterate. msimpl. intros Hrun.
  apply iterate_rounds_trace in Hrun. split; [done|].
  apply round_trace_requests.
Qed.

Lemma critique_of_failed r : call_failed r = true → critique_of r = _default_critique.
Proof. by destruct r. Qed.

Lemma improve_post_failed w post profile platform :
  call_failed (chat w 0%nat) = true →
  _improve_post post _default_critique profile platform w
  = (Ret post, after_chat Improve w).
Proof.
  intros Hfail. rewrite improve_post_run, default_critique_usable.
  by destruct (chat w 0%nat).
Qed.

Lemma iterate_rounds_all_fail n : ∀ w current profile platform,
  (∀ i, call_failed (chat w i) = true) →
  ∃ w', iterate_rounds n current profile platform w = (Ret current, w') ∧
        heap w' = heap w.
Proof.
  induction n as [|n IH]; intros w current profile platform Hfail;
    cbn [iterate_rounds].
  - by eexists.
  - unfold mbind, M_bind, bind.
    rewrite critique_post_run, (critique_of_failed _ (Hfail 0%nat)).
    rewrite improve_post_failed by apply (Hfail 1%nat).
    apply (IH (after_chat Improve (after_chat Critique w))).
    intros i. apply (Hfail (S (S i))).
Qed.

(** X8.  With the model out of reach (every request fails) the loop still
    returns, for any number of rounds, and what it returns is a copy of the
    input post: the same record in a new object. *)
Theorem iterate_all_calls_fail w post d profile platform iterations :
  heap w !! post = Some d →
  (∀ i, call_failed (chat w i) = true) →
  ∃ copy w',
    iterate post profile platform iterations w = (Ret copy, w') ∧
    copy ≠ post ∧
    heap w' !! copy = Some d ∧
    heap w' !! post = Some d.
Proof.
  intros Hlive Hfail.
  pose proof (fresh_loc_not_live w post d Hlive) as Hfresh.
  unfold iterate. msimpl.
  destruct (iterate_rounds_all_fail (Z.to_nat iterations)
              {| heap := <[fresh (dom (heap w)) := heap w !!! post]> (heap w);
                 self_brand_profile := self_brand_profile w; log := log w;
                 chat := chat w; images := images w; renders := renders w;
                 clock := clock w; web := web w; fs := fs w |}
              (fresh (dom (heap w))) profile platform Hfail)
    as (w' & Hrun & Hheap).
  exists (fresh (dom (heap w))), w'. split; [exact Hrun|].
  rewrite Hheap. cbn. rewrite (lookup_total_correct _ _ _ Hlive).
  by rewrite lookup_insert_eq, lookup_insert_ne.
Qed.

(** X9.  A critique that parses but is not a JSON object stops the loop: the
    improvement prompt is built outside the [try], and [critique.get]
    raises [AttributeError] after the critique request and before any
    improvement request. *)
Theorem iterate_critique_not_object_raises w post profile platform iterations v :
  0 < iterations →
  chat w 0%nat = Parsed v →
  is_dict v = false →
  ∃ w', iterate post profile platform iterations w = (Raise AttributeError, w') ∧
        log w' = (log w ++ [EChat Critique])%list.
Proof.
  intros Hpos Hreply Hshape. unfold iterate. msimpl.
  destruct (Z.to_nat iterations) as [|n] eqn:Hn; [lia|]. cbn.
  unfold mbind, M_bind, bind. rewrite critique_post_run, improve_post_run.
  cbn. rewrite Hreply. cbn.
  destruct v; try discriminate; by eexists.
Qed.

Lemma one_round_failed_critique w current profile platform m :
  call_failed (chat w 0%nat) = true →
  chat w 1%nat = Parsed (VDict m) →
  ∃ l w', iterate_rounds 1 current profile platform w = (Ret l, w') ∧
          dict_get (heap w' !!! l) "critique_score" = VFloat seven.
Proof.
  intros Hfail Hm. cbn [iterate_rounds].
  unfold mbind, M_bind, bind.
  rewrite critique_post_run, (critique_of_failed _ Hfail), improve_post_run.
  rewrite default_critique_usable.
  change (chat (after_chat Critique w) 0%nat) with (chat w 1%nat).
  rewrite Hm.
  eexists _, _. split; [reflexivity|]. cbn.
  rewrite lookup_total_insert_eq. unfold improved.
  by rewrite dict_get_insert_eq.
Qed.

(** X10.  When the critique request fails, the improvement is made against the
    neutral default critique, and a successful improvement is scored 7.0. *)
Theorem iterate_failed_critique_scores_seven w post profile platform m :
  call_failed (chat w 0%nat) = true →
  chat w 1%nat = Parsed (VDict m) →
  ∃ l w', iterate post profile platform 1 w = (Ret l, w') ∧
          dict_get (heap w' !!! l) "critique_score" = VFloat seven.
Proof.
  intros Hfail Hm.
  cbv beta iota zeta delta [iterate mbind M_bind bind load alloc].
  change (Z.to_nat 1) with 1%nat.
  by apply (one_round_failed_critique _ _ _ _ m).
Qed.

(** X11.  A successful improvement replaces the content wholesale: apart from
    the four metadata keys, the new record has exactly what the model sent.
    Fields of the old post that the model did not send again (an
    [image_path], a [reasoning]) are not carried over; the old object is
    left as it was. *)
Theorem improve_post_replaces_content w post d critique profile platform c m :
  heap w !! post = Some d →
  critique = VDict c →
  improvement_prompt critique = Ret tt →
  chat w 0%nat = Parsed (VDict m) →
  ∃ l w', _improve_post post critique profile platform w = (Ret l, w') ∧
          l ≠ post ∧
          heap w' !! post = Some d ∧
          heap w' !! l = Some (improved m d (dict_get c "overall_score")) ∧
          ∀ k, k ∉ metadata_keys → (heap w' !!! l) !! k = m !! k.
Proof.
  intros Hlive -> Hprompt Hm.
  pose proof (fresh_loc_not_live w post d Hlive) as Hfresh.
  rewrite improve_post_run, Hprompt, Hm.
  eexists _, _. split; [reflexivity|]. cbn.
  rewrite (lookup_total_correct _ _ _ Hlive).
  rewrite lookup_total_insert_eq, lookup_insert_eq, lookup_insert_ne by done.
  repeat split; try done.
  intros k Hk. unfold metadata_keys in Hk. set_unfold in Hk. unfold improved.
  rewrite !lookup_insert_ne by naive_solver. done.
Qed.

(** X12.  The position of a variation survives the loop, like its platform and
    intent. *)
Theorem iterate_keeps_variation_number w post profile platform iterations l w' :
  iterate post profile platform iterations w = (Ret l, w') →
  dict_get (heap w' !!! l) "variation_number"
    = dict_get (heap w !!! post) "variation_number".
Proof. apply iterate_metadata. set_solver. Qed.

End Rounds.

(** ** Generating variations *)

Section Generation.

Implicit Types (w : world) (d : dict).

Lemma generate_variations_run w profile intent platform
    constraints rag_elements num_variations :
  _build_generation_prompt profile intent platform (_get_platform_specs platform)
    constraints rag_elements num_variations = Ret tt →
  is_ret (generate_variations profile intent platform constraints rag_elements
            num_variations w).1 = true ∧
  (call_failed (chat w 0%nat) = true →
   generate_variations profile intent platform constraints rag_elements
     num_variations w = (Ret (Posts []), after_chat Generate w)).
Proof.
  intros Hprompt. unfold generate_variations.
  unfold mbind at 1, M_bind at 1, bind at 1, lift at 1. rewrite Hprompt.
  unfold try_except.
  destruct (generate_variations_try intent platform w) as [[v|e] w1] eqn:Htry.
  - split; [done|]. intros Hfail. revert Htry.
    unfold generate_variations_try. msimpl.
    by destruct (chat w 0%nat).
  - split; [done|]. intros Hfail. revert Htry.
    unfold generate_variations_try. msimpl.
    destruct (chat w 0%nat); try done; msimpl; by intros [= <- <-].
Qed.

(** X13.  Once the prompt could be built, a request that fails, or whose
    response cannot be read, makes [generate_variations] give the empty
    list after exactly that one request, with the heap as it was. *)
Theorem generate_variations_degrades_to_empty w profile intent platform
    constraints rag_elements num_variations :
  _build_generation_prompt profile intent platform (_get_platform_specs platform)
    constraints rag_elements num_variations = Ret tt →
  call_failed (chat w 0%nat) = true →
  generate_variations profile intent platform constraints rag_elements
    num_variations w = (Ret (Posts []), after_chat Generate w) ∧
  log (after_chat Generate w) = (log w ++ [EChat Generate])%list ∧
  heap (after_chat Generate w) = heap w.
Proof.
  intros Hprompt Hfail.
  destruct (generate_variations_run w profile intent platform constraints
              rag_elements num_variations Hprompt) as [_ Hempty].
  by rewrite Hempty.
Qed.

(** X14.  Once the prompt could be built, [generate_variations] returns
    whatever the model does. *)
Theorem generate_variations_never_raises w profile intent platform
    constraints rag_elements num_variations :
  _build_generation_prompt profile intent platform (_get_platform_specs platform)
    constraints rag_elements num_variations = Ret tt →
  is_ret (generate_variations profile intent platform constraints rag_elements
            num_variations w).1 = true.
Proof.
  intros Hprompt.
  by destruct (generate_variations_run w profile intent platform constraints
                 rag_elements num_variations Hprompt).
Qed.

Lemma attach_metadata_not_object platform intent : ∀ items idx w,
  existsb (λ v, negb (is_dict v)) items = true →
  ∃ w', attach_metadata platform intent idx items w = (Raise TypeError, w').
Proof.
  induction items as [|v rest IH]; intros idx w; cbn; [done|].
  unfold mbind, M_bind, bind, lift.
  destruct v; cbn; try by eexists.
  intros Hrest.
  destruct (IH (S idx)
              (with_heap (<[fresh (dom (heap w)) :=
                 <["variation_number" := VInt (Z.of_nat idx + 1)]>
                 (<["intent" := VStr intent]> (<["platform" := VStr platform]> m))]>
                 (heap w)) w) Hrest) as [w' Hrun].
  rewrite Hrun. by eexists.
Qed.

(** X15.  One entry that is not a JSON object spoils the batch: the call gives
    the empty list, also when the other entries were well formed. *)
Theorem generate_variations_all_or_nothing w profile intent platform
    constraints rag_elements num_variations m items :
  _build_generation_prompt profile intent platform (_get_platform_specs platform)
    constraints rag_elements num_variations = Ret tt →
  chat w 0%nat = Parsed (VDict m) →
  m !! "posts" = Some (VList items) →
  existsb (λ v, negb (is_dict v)) items = true →
  (generate_variations profile intent platform constraints rag_elements
     num_variations w).1 = Ret (Posts []).
Proof.
  intros Hprompt Hreply Hposts Hbad. unfold generate_variations.
  unfold mbind at 1, M_bind at 1, bind at 1, lift at 1. rewrite Hprompt.
  unfold try_except, generate_variations_try. msimpl.
  rewrite Hreply. msimpl. unfold dict_item. rewrite Hposts. cbn.
  destruct (attach_metadata_not_object platform intent items 0%nat
              (after_chat Generate w) Hbad) as [w' Hrun].
  unfold after_chat in Hrun. by rewrite Hrun.
Qed.

(** X16.  The prompt is built before the [try]: a profile that is an object
    without a ['brand_voice'] group makes [generate_variations] raise
    [KeyError], before any request is sent. *)
Theorem generate_variations_needs_brand_voice w (p : dict) intent platform
    constraints rag_elements num_variations :
  p !! "brand_voice" = None →
  generate_variations (VDict p) intent platform constraints rag_elements
    num_variations w = (Raise KeyError, w).
Proof.
  intros Hmissing. unfold generate_variations, _build_generation_prompt.
  unfold mbind, M_bind, bind, lift, res_mbind, res_bind, subscript, dict_item.
  by rewrite Hmissing.
Qed.

End Generation.

(** ** Rendering *)

Section Rendering.

Implicit Types (w : world) (r : render_env).

(** X17.  A rendering in which nothing fails writes one image, named after the
    clock, and returns its path.  The text is centred: the margin left of
    it and the margin right of it differ by at most one pixel; and it
    starts a third of the way down. *)
Theorem add_text_overlay_centres_text w image_path text profile
    img_width img_height b0 b1 b2 b3 :
  render_works (renders w 0%nat) = true →
  img_size (renders w 0%nat) = (img_width, img_height) →
  bbox (renders w 0%nat) = Some (b0, b1, b2, b3) →
  ∃ w' x y,
    add_text_overlay image_path text profile w
      = (Ret (path_join output_dir ("final_" +:+ clock w 0%nat +:+ ".png")), w') ∧
    log w' = (log w ++ [EOpenImage image_path;
                EWrite (path_join output_dir ("final_" +:+ clock w 0%nat +:+ ".png"))
                  (Overlaid image_path text (chosen_font (renders w 0%nat)) x y)])%list ∧
    0 ≤ (img_width - (x + (b2 - b0))) - x ≤ 1 ∧
    y = img_height `div` 3.
Proof.
  unfold render_works, render_fails, chosen_font, add_text_overlay. msimpl.
  destruct (renders w 0%nat) as [op [iw ih] fe tt' df bb dr sv]; cbn.
  intros Hworks [= -> ->] ->. revert Hworks.
  pose proof (Z.div_mod (img_width - (b2 - b0)) 2 ltac:(done)) as Hdiv.
  pose proof (Z.mod_pos_bound (img_width - (b2 - b0)) 2 ltac:(done)) as Hmod.
  destruct op, (pick_font _ _) as [f|], df, dr, sv; cbn; intros Hworks;
    try discriminate.
  all: eexists _, _, _; split; [reflexivity|]; cbn.
  all: split; [by rewrite <- app_assoc|].
  all: split; [lia|done].
Qed.

(** X18.  The font is the first of the three listed paths that exists and
    loads; a path that exists but does not load is passed over; the
    built-in font is used only when no listed path qualifies. *)
Theorem pick_font_first_usable r :
  match pick_font r font_paths with
  | Some (TrueType p) =>
      ∃ before after,
        font_paths = (before ++ p :: after)%list ∧
        font_exists r p = true ∧ truetype_ok r p = true ∧
        ∀ q, q ∈ before → font_exists r q && truetype_ok r q = false
  | Some DefaultFont => False
  | None => ∀ q, q ∈ font_paths → font_exists r q && truetype_ok r q = false
  end.
Proof.
  unfold font_paths, pick_font.
  destruct (font_exists r "/usr/share/fonts/truetype/dejavu/DejaVuSans-Bold.ttf") eqn:He1,
           (truetype_ok r "/usr/share/fonts/truetype/dejavu/DejaVuSans-Bold.ttf") eqn:Ht1;
    try (by exists [], ["C:/Windows/Fonts/arialbd.ttf";
                        "/System/Library/Fonts/Helvetica.ttc"];
         repeat split; try done; intros q Hq; set_solver).
  all: destruct (font_exists r "C:/Windows/Fonts/arialbd.ttf") eqn:He2,
                (truetype_ok r "C:/Windows/Fonts/arialbd.ttf") eqn:Ht2;
    try (by exists ["/usr/share/fonts/truetype/dejavu/DejaVuSans-Bold.ttf"],
                   ["/System/Library/Fonts/Helvetica.ttc"];
         repeat split; try done; intros q Hq; set_unfold in Hq;
         destruct Hq as [->|[]]; rewrite He1, Ht1).
  all: destruct (font_exists r "/System/Library/Fonts/Helvetica.ttc") eqn:He3,
                (truetype_ok r "/System/Library/Fonts/Helvetica.ttc") eqn:Ht3;
    try (by exists ["/usr/share/fonts/truetype/dejavu/DejaVuSans-Bold.ttf";
                    "C:/Windows/Fonts/arialbd.ttf"], [];
         repeat split; try done; intros q Hq; set_unfold in Hq;
         destruct Hq as [->|[->|[]]]; rewrite ?He1, ?Ht1, ?He2, ?Ht2).
  all: intros q Hq; set_unfold in Hq;
       destruct Hq as [->|[->|[->|[]]]];
       rewrite ?He1, ?Ht1, ?He2, ?Ht2, ?He3, ?Ht3; done.
Qed.

End Rendering.

(** ** Platforms *)

(** X19.  For a platform other than the two listed ones the two tables fall
    back differently: the text guidance is LinkedIn's, the image size is the
    square one that the table gives Instagram. *)
Theorem unknown_platform_fallbacks_differ platform :
  platform ≠ "linkedin" → platform ≠ "instagram" →
  _get_platform_specs platform = _get_platform_specs "linkedin" ∧
  _get_image_dimensions (VStr platform) = _get_image_dimensions (VStr "instagram") ∧
  _get_image_dimensions (VStr platform) ≠ _get_image_dimensions (VStr "linkedin").
Proof.
  intros Hl Hi.
  assert (Hspecs : specs !! platform = None).
  { unfold specs. cbn. by rewrite !lookup_insert_ne, lookup_empty. }
  assert (Hdims : dimensions_table !! platform = None).
  { unfold dimensions_table. cbn. by rewrite !lookup_insert_ne, lookup_empty. }
  unfold _get_platform_specs, _get_image_dimensions.
  rewrite Hspecs, Hdims. by repeat split.
Qed.

(** ** The analyzer's inputs *)

Section Analyzer.

Implicit Types (w : world).

Lemma substring_length_le (s : string) : ∀ (i n : nat),
  (String.length (String.substring i n s) ≤ n)%nat.
Proof.
  induction s as [|c s IH]; intros [|i] [|n]; cbn; try lia.
  - specialize (IH 0%nat n). lia.
  - apply IH.
  - apply IH.
Qed.

(** X20.  [scrape_website] never raises and never hands on more than 5000
    characters; a fetch that fails gives the empty text.  Either way it
    has made one fetch and no model request. *)
Theorem scrape_website_bounded w url :
  ∃ text w',
    scrape_website url w = (Ret text, w') ∧
    (String.length text ≤ 5000)%nat ∧
    (web w 0%nat = None → text = "") ∧
    log w' = (log w ++ [EFetch url])%list ∧
    chat w' = chat w.
Proof.
  unfold scrape_website. msimpl.
  destruct (web w 0%nat) as [page|]; msimpl;
    eexists _, _; (split; [reflexivity|]); cbn; repeat split; try done.
  - apply substring_length_le.
  - lia.
Qed.

(** X21.  [analyze] fetches the website only when a non-empty URL is given, and
    sends exactly one model request whatever the sources are. *)
Theorem analyze_one_request w website_url existing_posts brand_guidelines :
  ∃ p w',
    analyze website_url existing_posts brand_guidelines w = (Ret p, w') ∧
    heap w' = heap w ∧
    log w' = (log w ++
              match website_url with
              | Some url => if bool_decide (url = "") then [] else [EFetch url]
              | None => []
              end ++ [EChat Analyze])%list.
Proof.
  unfold analyze, scrape_website.
  destruct website_url as [url|]; [destruct (bool_decide (url = ""))|];
    msimpl; try destruct (web w 0%nat); msimpl;
    destruct (chat w 0%nat); msimpl;
    eexists _, _; (split; [reflexivity|]); cbn;
    by rewrite <- ?app_assoc.
Qed.

End Analyzer.

(** ** Saving, continued *)

Section Saving.

Implicit Types (w : world) (post : loc) (d : dict).

(** X22.  Once the output directory has been created and the caption file
    opened, a caption that is not a string (a number, [None], a list)
    makes [save_post] raise [TypeError] with the caption file created and
    empty and no metadata file. *)
Theorem save_post_caption_not_string w post d output_dir caption :
  heap w !! post = Some d →
  output_dir ≠ "" →
  fs w 0%nat = true →
  fs w 1%nat = true →
  d !! "caption" = Some caption →
  is_str caption = false →
  ∃ w', save_post post output_dir w = (Raise TypeError, w') ∧
        log w' = (log w ++ [EMakedirs output_dir;
                    ECreate (path_join output_dir
                               (("post_" +:+ clock w 0%nat) +:+ "_caption.txt"))])%list.
Proof.
  intros Hlive Hdir Hmk Hopen Hcaption Hshape.
  unfold save_post, dict_item. msimpl.
  rewrite (bool_decide_eq_false_2 _ Hdir). msimpl.
  rewrite Hmk. msimpl.
  change (shift (fs w) 0%nat) with (fs w 1%nat). rewrite Hopen. msimpl.
  rewrite (lookup_total_correct _ _ _ Hlive), Hcaption.
  destruct caption; try discriminate; cbn;
    eexists; (split; [reflexivity|]); cbn; by rewrite <- !app_assoc.
Qed.

(** X23.  What is saved is a snapshot of five fields: hashtags, call to action,
    hook, image path and critique score of the post are in neither file,
    and the post itself is left as it was. *)
Theorem save_post_writes_five_fields w post d output_dir s w' path meta :
  heap w !! post = Some d →
  d !! "caption" = Some (VStr s) →
  save_post post output_dir w = (Ret output_dir, w') →
  EWrite path (Json (VDict meta)) ∈ log w' →
  EWrite path (Json (VDict meta)) ∉ log w →
  dom meta = {["platform"; "intent"; "timestamp"; "caption"; "overlay_text"]} ∧
  heap w' = heap w.
Proof.
  intros Hlive Hcaption. unfold save_post, dict_item. msimpl.
  destruct (bool_decide (output_dir = "")); msimpl; [done|].
  destruct (fs w 0%nat); msimpl; [|done].
  destruct (shift (fs w) 0%nat); msimpl; [|done].
  rewrite (lookup_total_correct _ _ _ Hlive), Hcaption. msimpl.
  destruct (shift (shift (fs w)) 0%nat); msimpl; [|done].
  destruct (shift (shift (shift (fs w))) 0%nat); msimpl; [|done].
  rewrite !(lookup_total_correct _ _ _ Hlive), Hcaption. msimpl.
  destruct (shift (shift (shift (shift (fs w)))) 0%nat); msimpl; [|done].
  intros [= <-]. cbn. intros Hin Hnotin.
  rewrite !elem_of_app in Hin.
  destruct Hin as [[[[[Hin|Hin]|Hin]|Hin]|Hin]|Hin]; [done|..];
    apply list_elem_of_singleton in Hin; try discriminate.
  injection Hin as -> ->. split; [|done].
  rewrite !dom_insert_L, dom_empty_L. set_solver.
Qed.

End Saving.

(** ** The orchestrator, continued *)

Section Session.

Variable _hex_to_color_names : pyval → res pyval.
Variable placeholder_name : string → pyval → string.

Implicit Types (w : world) (post : loc) (d : dict).

(** X5.  When the refinement request fails, [refine_post] hands back the very
    post it was given, untouched, after that one request: no image is
    requested, opened or written. *)
Theorem refine_post_failure_is_identity w post d fb :
  heap w !! post = Some d →
  call_failed (chat w 0%nat) = true →
  refine_post _hex_to_color_names placeholder_name post fb w
    = (Ret post, after_chat Refine w).
Proof.
  intros Hlive Hfail. unfold refine_post, refine_with_feedback. msimpl.
  destruct (chat w 0%nat); try done; msimpl;
    by rewrite py_eq_refl.
Qed.

(** X6.  A refinement that succeeds but leaves the caption as it was returns
    the model's record without regenerating anything, and so without an
    image: unless the model itself sent an [image_path], the refined post
    has none, although the original had one. *)
Theorem refine_post_same_caption_has_no_image w post d fb m :
  heap w !! post = Some d →
  chat w 0%nat = Parsed (VDict m) →
  py_eq (dict_get m "caption") (dict_get d "caption") = true →
  m !! "image_path" = None →
  ∃ l w', refine_post _hex_to_color_names placeholder_name post fb w = (Ret l, w') ∧
          l ≠ post ∧
          (heap w' !!! l) !! "image_path" = None ∧
          heap w' !! post = Some d ∧
          log w' = (log w ++ [EChat Refine])%list.
Proof.
  intros Hlive Hreply Hcaption Himage.
  pose proof (fresh_loc_not_live w post d Hlive) as Hfresh.
  unfold refine_post, refine_with_feedback. msimpl.
  rewrite Hreply. msimpl.
  rewrite lookup_total_insert_eq, lookup_total_insert_ne by done.
  rewrite (lookup_total_correct _ _ _ Hlive).
  rewrite !dict_get_insert_ne by done. rewrite Hcaption. cbn.
  eexists _, _. split; [reflexivity|]. cbn.
  rewrite lookup_total_insert_eq, lookup_insert_ne by done.
  by rewrite !lookup_insert_ne.
Qed.

(** X24.  Whatever goes wrong with the image service (the request, the
    download, the decoding, the saving), [generate_background] returns the
    placeholder, once the prompt has been built. *)
Theorem generate_background_falls_back w post profile platform dims :
  _get_image_dimensions platform = Ret dims →
  _build_dalle_prompt _hex_to_color_names (heap w !!! post) profile platform = Ret tt →
  images w 0%nat ≠ ImageOk →
  ∃ w', generate_background _hex_to_color_names placeholder_name
          post profile platform w
        = (Ret (path_join output_dir (placeholder_name dims profile)), w') ∧
        last_write is_background_write (log w')
          = Some (path_join output_dir (placeholder_name dims profile)).
Proof.
  intros Hdims Hprompt Hfail.
  unfold generate_background, _create_placeholder_image. msimpl.
  rewrite Hdims. cbn. rewrite Hprompt. cbn.
  destruct (images w 0%nat); try done; cbn;
    eexists; (split; [reflexivity|]); cbn;
    by rewrite last_write_app.
Qed.

(** X25.  The image prompt, too, is built outside the [try]: with a profile that
    is an object without a ['visual_identity'] group the image stage raises
    [KeyError] and no image is requested. *)
Theorem generate_background_needs_visual_identity w post (p : dict) platform dims :
  _get_image_dimensions platform = Ret dims →
  p !! "visual_identity" = None →
  generate_background _hex_to_color_names placeholder_name post (VDict p) platform w
    = (Raise KeyError, w).
Proof.
  intros Hdims Hmissing. unfold generate_background, _build_dalle_prompt. msimpl.
  rewrite Hdims. cbn. unfold dict_item. by rewrite Hmissing.
Qed.

Lemma analyze_brand_run w website_url existing_posts brand_guidelines :
  ∃ p w',
    analyze_brand website_url existing_posts brand_guidelines w = (Ret p, w') ∧
    self_brand_profile w' = p ∧
    (call_failed (chat w 0%nat) = true → p = _default_brand_profile) ∧
    (∀ v, chat w 0%nat = Parsed v → p = v) ∧
    chat w' = shift (chat w) ∧
    log w' = (log w ++
              match website_url with
              | Some url => if bool_decide (url = "") then [] else [EFetch url]
              | None => []
              end ++ [EChat Analyze])%list.
Proof.
  unfold analyze_brand, analyze, scrape_website.
  destruct website_url as [url|]; [destruct (bool_decide (url = ""))|];
    msimpl; try destruct (web w 0%nat); msimpl;
    destruct (chat w 0%nat); msimpl;
    eexists _, _; (split; [reflexivity|]); cbn;
    repeat split; try done; try congruence; by rewrite <- ?app_assoc.
Qed.

(** X4.  [analyze_brand] stores what it returns: afterwards the session's
    profile is the returned one, which is the default when the request
    failed and the parsed value, of whatever shape, otherwise. *)
Theorem analyze_brand_stores_profile w website_url existing_posts brand_guidelines :
  ∃ p w',
    analyze_brand website_url existing_posts brand_guidelines w = (Ret p, w') ∧
    self_brand_profile w' = p ∧
    (call_failed (chat w 0%nat) = true → p = _default_brand_profile) ∧
    (∀ v, chat w 0%nat = Parsed v → p = v).
Proof.
  destruct (analyze_brand_run w website_url existing_posts brand_guidelines)
    as (p & w' & Hrun & Hstored & Hfail & Hparsed & _).
  by exists p, w'.
Qed.

Lemma default_profile_prompt intent platform constraints rag n :
  _build_generation_prompt _default_brand_profile intent platform
    (_get_platform_specs platform) constraints rag n = Ret tt.
Proof. reflexivity. Qed.

(** X3.  A session in which the model is never reached still runs through:
    [analyze_brand] settles on the default profile, and [generate_post]
    then returns no posts, without raising and without any image work. *)
Theorem offline_session_yields_no_posts w website_url existing_posts
    brand_guidelines intent platform constraints rag_elements :
  (∀ i, call_failed (chat w i) = true) →
  ∃ w1 w2,
    analyze_brand website_url existing_posts brand_guidelines w
      = (Ret _default_brand_profile, w1) ∧
    generate_post _hex_to_color_names placeholder_name intent platform
      constraints rag_elements w1 = (Ret [], w2) ∧
    count is_image_request (log w2) = count is_image_request (log w) ∧
    count is_background_write (log w2) = count is_background_write (log w).
Proof.
  intros Hfail.
  destruct (analyze_brand_run w website_url existing_posts brand_guidelines)
    as (p & w1 & Hrun & Hstored & Hdefault & _ & Hchat & Hlog).
  rewrite (Hdefault (Hfail 0%nat)) in *. clear Hdefault.
  exists w1.
  unfold generate_post.
  unfold mbind at 1, M_bind at 1, bind at 1, get_brand_profile at 1.
  rewrite Hstored.
  change (py_truthy _default_brand_profile) with true.
  unfold mbind at 1, M_bind at 1, bind at 1. cbn [ret].
  unfold mbind at 1, M_bind at 1, bind at 1.
  destruct (generate_variations_run w1 _default_brand_profile
              intent platform constraints rag_elements 3
              (default_profile_prompt _ _ _ _ _)) as [_ Hempty].
  rewrite Hempty by (rewrite Hchat; apply (Hfail 1%nat)).
  cbn. eexists. split; [exact Hrun|]. split; [reflexivity|]. cbn.
  rewrite Hlog, !count_app. cbn.
  destruct website_url as [url|]; [destruct (bool_decide (url = ""))|]; cbn; lia.
Qed.

End Session.

(** ** One generation request, end to end *)

Section EndToEnd.

Variable _hex_to_color_names : pyval → res pyval.
Variable placeholder_name : string → pyval → string.

Implicit Types (w : world) (post : loc) (d : dict).

(** The feedback loop only adds objects to the heap. *)
Lemma improve_post_frame w post critique profile platform l w' :
  post ∈ dom (heap w) →
  _improve_post post critique profile platform w = (Ret l, w') →
  l ∈ dom (heap w') ∧
  ∀ l0, l0 ∈ dom (heap w) → heap w' !! l0 = heap w !! l0.
Proof.
  intros Hlive. rewrite improve_post_run.
  destruct (improvement_prompt critique); [|done].
  destruct (chat w 0%nat) as [| |[]], critique; intros [= <- <-]; cbn;
    try done.
  split.
  - rewrite dom_insert_L. apply elem_of_union. left. by apply elem_of_singleton.
  - intros l0 Hl0. rewrite lookup_insert_ne; [done|].
    intros <-. by apply (is_fresh (dom (heap w))).
Qed.

Lemma iterate_rounds_frame n : ∀ w current profile platform l w',
  current ∈ dom (heap w) →
  iterate_rounds n current profile platform w = (Ret l, w') →
  l ∈ dom (heap w') ∧
  ∀ l0, l0 ∈ dom (heap w) → heap w' !! l0 = heap w !! l0.
Proof.
  induction n as [|n IH]; intros w current profile platform l w' Hlive; cbn.
  - by intros [= <- <-].
  - unfold mbind, M_bind, bind. rewrite critique_post_run.
    destruct (_improve_post _ _ _ _ _) as [[next|e] w1] eqn:Himprove; [|done].
    apply improve_post_frame in Himprove as [Hnext Hkeep1]; [|done].
    intros Hrest. apply IH in Hrest as [Hl Hkeep2]; [|done].
    split; [done|]. intros l0 Hl0.
    rewrite Hkeep2, Hkeep1; try done.
    apply elem_of_dom. rewrite Hkeep1 by done. by apply elem_of_dom.
Qed.

Lemma iterate_frame w post profile platform iterations l w' :
  iterate post profile platform iterations w = (Ret l, w') →
  l ∈ dom (heap w') ∧
  ∀ l0, l0 ∈ dom (heap w) → heap w' !! l0 = heap w !! l0.
Proof.
  unfold iterate. msimpl. intros Hrun.
  apply iterate_rounds_frame in Hrun as [Hl Hkeep]; cbn in *.
  - split; [done|]. intros l0 Hl0. rewrite Hkeep.
    + rewrite lookup_insert_ne; [done|].
      intros <-. by apply (is_fresh (dom (heap w))).
    + rewrite dom_insert_L. apply elem_of_union. by right.
  - rewrite dom_insert_L. apply elem_of_union. left. by apply elem_of_singleton.
Qed.

(** The second loop of [generate_post]: every variation goes through the
    feedback loop, in order, and comes out with its metadata. *)
Lemma improve_all_metadata platform : ∀ posts w improved_posts w',
  Forall (λ l, l ∈ dom (heap w)) posts →
  for_each (λ post, brand_profile ← get_brand_profile;
                    iterate post brand_profile platform 2) posts w
    = (Ret improved_posts, w') →
  ∀ i l, improved_posts !! i = Some l →
    ∃ l0, posts !! i = Some l0 ∧
      ∀ k, k ∈ ["platform"; "intent"; "variation_number"] →
        dict_get (heap w' !!! l) k = dict_get (heap w !!! l0) k.
Proof.
  induction posts as [|post posts IH]; intros w improved_posts w' Hlive; cbn.
  - by intros [= <- <-].
  - inversion Hlive as [|? ? Hpost Hposts]; subst.
    unfold mbind, M_bind, bind, get_brand_profile.
    destruct (iterate _ _ _ _ _) as [[l1|e] w1] eqn:Hiter; [|done].
    destruct (for_each _ posts w1) as [[ls|e] w2] eqn:Hrest; [|done].
    unfold ret. intros [= <- <-].
    pose proof (iterate_frame _ _ _ _ _ _ _ Hiter) as [Hl1 Hkeep].
    assert (Hposts1 : Forall (λ l, l ∈ dom (heap w1)) posts).
    { eapply Forall_impl; [|exact Hposts]. intros l0 Hl0. cbn in *.
      apply elem_of_dom. rewrite Hkeep by done. by apply elem_of_dom. }
    pose proof (IH _ _ _ Hposts1 Hrest) as Hmeta.
    (* the later iterations do not touch the objects that exist already *)
    assert (Hkeep2 : ∀ l0, l0 ∈ dom (heap w1) → heap w2 !! l0 = heap w1 !! l0).
    { clear -Hrest. revert w1 ls w2 Hrest.
      induction posts as [|p ps IHps]; intros w1 ls w2; cbn.
      - by intros [= <- <-].
      - unfold mbind, M_bind, bind, get_brand_profile.
        destruct (iterate _ _ _ _ _) as [[la|e] wa] eqn:Ha; [|done].
        destruct (for_each _ ps wa) as [[lb|e] wb] eqn:Hb; [|done].
        unfold ret. intros [= <- <-] l0 Hl0.
        pose proof (iterate_frame _ _ _ _ _ _ _ Ha) as [_ Hka].
        rewrite (IHps _ _ _ Hb), Hka; try done.
        apply elem_of_dom. rewrite Hka by done. by apply elem_of_dom. }
    intros [|i] l; cbn.
    + intros [= <-]. exists post. split; [done|]. intros k Hk.
      rewrite <- (iterate_metadata _ _ _ _ _ _ _ k Hk Hiter).
      unfold dict_get. by rewrite !lookup_total_alt, Hkeep2.
    + intros Hl. destruct (Hmeta _ _ Hl) as (l0 & Hl0 & Hk).
      exists l0. split; [done|]. intros k Hkk. rewrite (Hk k Hkk).
      unfold dict_get. rewrite !lookup_total_alt, Hkeep; [done|].
      eapply Forall_lookup_1 in Hposts; [exact Hposts|exact Hl0].
Qed.

Lemma compose_image_run w post profile platform l w' :
  compose_image _hex_to_color_names placeholder_name profile platform post w
    = (Ret l, w') →
  l = post ∧
  ∃ path, heap w' = <[post := <["image_path" := VStr path]> (heap w !!! post)]> (heap w).
Proof.
  unfold compose_image. unfold mbind, M_bind, bind.
  destruct (generate_background _ _ _ _ _ _) as [[bg|e] w1] eqn:Hbg; [|done].
  apply generate_background_run in Hbg as (Hheap1 & _ & _).
  unfold load at 1.
  destruct (add_text_overlay_run w1 bg
              (dict_get_or (heap w1 !!! post) "overlay_text" (VStr "")) profile)
    as (out & w2 & -> & Hheap2 & _).
  unfold load, store, ret. cbn. intros [= <- <-]. cbn.
  split; [done|]. exists out. by rewrite Hheap2, Hheap1.
Qed.

(** The third loop of [generate_post]: the posts come back in the same
    order, each with an image path; nothing but [image_path] changes, on
    any object. *)
Lemma compose_all_run platform : ∀ posts w final_posts w',
  for_each (λ post, brand_profile ← get_brand_profile;
                    compose_image _hex_to_color_names placeholder_name
                      brand_profile platform post) posts w
    = (Ret final_posts, w') →
  final_posts = posts ∧
  (∀ l k, k ≠ "image_path" → (heap w' !!! l) !! k = (heap w !!! l) !! k) ∧
  (∀ l, is_str (dict_get (heap w !!! l) "image_path") = true ∨ l ∈ posts →
        is_str (dict_get (heap w' !!! l) "image_path") = true).
Proof.
  induction posts as [|post posts IH]; intros w final_posts w'; cbn.
  - intros [= <- <-]. repeat split; try done.
    intros l [?|Hl]; [done|]. by apply elem_of_nil in Hl.
  - unfold mbind, M_bind, bind, get_brand_profile.
    destruct (compose_image _ _ _ _ _ _) as [[l1|e] w1] eqn:Hcompose; [|done].
    destruct (for_each _ posts w1) as [[ls|e] w2] eqn:Hrest; [|done].
    unfold ret. intros [= <- <-].
    apply compose_image_run in Hcompose as [-> [path Hheap]].
    apply IH in Hrest as (-> & Hkeep & Himage).
    split; [done|]. split.
    + intros l k Hk. rewrite Hkeep by done. rewrite Hheap.
      destruct (decide (l = post)) as [->|Hne].
      * by rewrite lookup_total_insert_eq, lookup_insert_ne.
      * by rewrite lookup_total_insert_ne.
    + intros l Hl. apply Himage.
      destruct (decide (l = post)) as [->|Hne].
      * left. rewrite Hheap, lookup_total_insert_eq.
        by rewrite dict_get_insert_eq.
      * destruct Hl as [Hl|Hl].
        -- left. by rewrite Hheap, lookup_total_insert_ne.
        -- right. apply elem_of_cons in Hl as [?|?]; done.
Qed.

(** What [generate_variations] leaves in the heap, for any outcome. *)
Lemma generate_variations_posts w profile intent platform constraints rag n v w' :
  generate_variations profile intent platform constraints rag n w = (Ret v, w') →
  ∀ i l, posts_of v !! i = Some l →
    l ∈ dom (heap w') ∧
    dict_get (heap w' !!! l) "platform" = VStr platform ∧
    dict_get (heap w' !!! l) "intent" = VStr intent ∧
    dict_get (heap w' !!! l) "variation_number" = VInt (Z.of_nat i + 1).
Proof.
  unfold generate_variations.
  unfold mbind at 1, M_bind at 1, bind at 1, lift at 1.
  destruct (_build_generation_prompt _ _ _ _ _ _ _) as [[]|e]; [|done].
  unfold try_except.
  destruct (generate_variations_try intent platform w) as [[v0|e] w1] eqn:Htry.
  - intros [= <- <-]. revert Htry.
    unfold generate_variations_try. msimpl.
    destruct (chat w 0%nat) as [| |[| | | | | |m]]; msimpl; try done.
    unfold dict_item. destruct (m !! "posts") as [posts|]; cbn; [|done].
    destruct posts as [| | | | |items|]; cbn; try done.
    + destruct (attach_metadata _ _ _ _ _) as [[ls|e] w2]; cbn; [|done].
      by intros [= <- <-] i l.
    + destruct (attach_metadata _ _ _ _ _) as [[ls|e] w2] eqn:Hattach; cbn; [|done].
      intros [= <- <-] i l Hl. cbn in Hl.
      apply attach_metadata_run in Hattach as (_ & _ & _ & _ & Hps).
      destruct (Hps _ _ Hl) as (d & _ & Hheap).
      split; [apply elem_of_dom; eauto|].
      rewrite (lookup_total_correct _ _ _ Hheap). unfold variation.
      repeat split;
        repeat (first [ by rewrite dict_get_insert_eq
                      | rewrite dict_get_insert_ne by done ]).
    + destruct (attach_metadata _ _ _ _ _) as [[ls|e] w2]; cbn; [|done].
      by intros [= <- <-] i l.
  - unfold ret. intros [= <- <-] i l. by cbn.
Qed.

(** X2.  Every post [generate_post] returns carries the platform and the
    intent of the request, its position among the variations (counting
    from 1) and an image path, whatever the model sent under these keys and
    however the critiques, improvements and images went. *)
Theorem generate_post_posts_carry_request w intent platform constraints
    rag_elements final_posts w' :
  generate_post _hex_to_color_names placeholder_name intent platform
    constraints rag_elements w = (Ret final_posts, w') →
  ∀ i l, final_posts !! i = Some l →
    dict_get (heap w' !!! l) "platform" = VStr platform ∧
    dict_get (heap w' !!! l) "intent" = VStr intent ∧
    dict_get (heap w' !!! l) "variation_number" = VInt (Z.of_nat i + 1) ∧
    is_str (dict_get (heap w' !!! l) "image_path") = true.
Proof.
  unfold generate_post.
  unfold mbind at 1, M_bind at 1, bind at 1, get_brand_profile at 1.
  unfold mbind at 1, M_bind at 1, bind at 1.
  destruct (py_truthy (self_brand_profile w)); [|done]. cbn [ret].
  unfold mbind at 1, M_bind at 1, bind at 1.
  destruct (generate_variations _ _ _ _ _ _ _) as [[v|e] w1] eqn:Hgen; [|done].
  unfold mbind at 1, M_bind at 1, bind at 1.
  destruct (for_each _ (posts_of v) w1) as [[improved_posts|e] w2] eqn:Himprove;
    [|done].
  intros Hcompose i l Hl.
  pose proof (generate_variations_posts _ _ _ _ _ _ _ _ _ Hgen) as Hposts.
  apply compose_all_run in Hcompose as (-> & Hkeep & Himage).
  assert (Hlive : Forall (λ l, l ∈ dom (heap w1)) (posts_of v)).
  { apply Forall_lookup_2. intros j l0 Hj. by apply (Hposts j l0). }
  destruct (improve_all_metadata _ _ _ _ _ Hlive Himprove _ _ Hl)
    as (l0 & Hl0 & Hmeta).
  destruct (Hposts _ _ Hl0) as (_ & Hplatform & Hintent & Hnumber).
  unfold dict_get in *.
  rewrite !Hkeep by done.
  rewrite (Hmeta "platform"), (Hmeta "intent"), (Hmeta "variation_number")
    by repeat constructor.
  repeat split; try done.
  apply Himage. right. by eapply list_elem_of_lookup_2.
Qed.

End EndToEnd.

(** ** Runs of the further properties *)

Lemma all_requests_fail_offline (h : gmap loc dict) (p : pyval) i :
  call_failed (chat (session h p [ApiError] [] [] []) i) = true.
Proof. destruct i as [|[|i]]; reflexivity. Qed.

Lemma generate_post_requires_profile_witness :
  generate_post color_names_stub placeholder_stub "Announce launch" "linkedin"
    None None w_unset = (Raise ValueError, w_unset).
Proof.
  apply (generate_post_requires_profile color_names_stub placeholder_stub w_unset).
  reflexivity.
Defined.

Lemma iterate_two_requests_per_round_witness :
  log (iterate 0%nat _default_brand_profile "linkedin" 2 w_two_rounds).2
    = [EChat Critique; EChat Improve; EChat Critique; EChat Improve] ∧
  count is_chat (round_trace 2) = 4%nat.
Proof.
  apply (iterate_two_requests_per_round w_two_rounds 0%nat
           _default_brand_profile "linkedin" 2 2%nat
           (iterate 0%nat _default_brand_profile "linkedin" 2 w_two_rounds).2).
  vm_compute. reflexivity.
Defined.

Lemma iterate_all_calls_fail_witness :
  ∃ copy w',
    iterate 0%nat _default_brand_profile "linkedin" 3 w_refine_fails = (Ret copy, w') ∧
    copy ≠ 0%nat ∧
    heap w' !! copy = Some launch_post ∧
    heap w' !! 0%nat = Some launch_post.
Proof.
  apply (iterate_all_calls_fail w_refine_fails 0%nat launch_post).
  - reflexivity.
  - apply all_requests_fail_offline.
Defined.

Lemma iterate_critique_not_object_raises_witness :
  ∃ w', iterate 0%nat _default_brand_profile "linkedin" 2 w_array_critique
          = (Raise AttributeError, w') ∧
        log w' = (log w_array_critique ++ [EChat Critique])%list.
Proof.
  apply (iterate_critique_not_object_raises w_array_critique 0%nat
           _default_brand_profile "linkedin" 2 (VList []));
    [lia|reflexivity|reflexivity].
Defined.

Lemma iterate_failed_critique_scores_seven_witness :
  ∃ l w', iterate 0%nat _default_brand_profile "linkedin" 1 w_critique_down
            = (Ret l, w') ∧
          dict_get (heap w' !!! l) "critique_score" = VFloat seven.
Proof.
  apply (iterate_failed_critique_scores_seven w_critique_down 0%nat
           _default_brand_profile "linkedin" (fields (model_post "Better."))).
  - reflexivity.
  - reflexivity.
Defined.

Lemma improve_post_replaces_content_witness :
  ∃ l w', _improve_post 0%nat good_critique _default_brand_profile "linkedin"
            w_refine_ok = (Ret l, w') ∧
          l ≠ 0%nat ∧
          heap w' !! 0%nat = Some launch_post ∧
          (heap w' !!! l) !! "variation_number" = Some (VInt 1).
Proof.
  destruct (improve_post_replaces_content w_refine_ok 0%nat launch_post
              good_critique _default_brand_profile "linkedin"
              (fields good_critique)
              (fields (model_post "We launch today, join us."))
              eq_refl eq_refl eq_refl eq_refl)
    as (l & w' & Hrun & Hne & Hold & Hnew & _).
  exists l, w'. repeat split; [exact Hrun|exact Hne|exact Hold|].
  rewrite (lookup_total_correct _ _ _ Hnew). reflexivity.
Defined.

Lemma iterate_keeps_variation_number_witness :
  dict_get (heap (iterate 0%nat _default_brand_profile "linkedin" 2
                    w_two_rounds).2 !!! 2%nat) "variation_number"
  = dict_get (heap w_two_rounds !!! 0%nat) "variation_number".
Proof.
  apply (iterate_keeps_variation_number w_two_rounds 0%nat
           _default_brand_profile "linkedin" 2 2%nat).
  vm_compute. reflexivity.
Defined.

Lemma generate_variations_degrades_to_empty_witness :
  generate_variations _default_brand_profile "Announce launch" "linkedin"
    None None 3 w_offline = (Ret (Posts []), after_chat Generate w_offline) ∧
  log (after_chat Generate w_offline) = (log w_offline ++ [EChat Generate])%list ∧
  heap (after_chat Generate w_offline) = heap w_offline.
Proof.
  apply (generate_variations_degrades_to_empty w_offline);
    reflexivity.
Defined.

Lemma generate_variations_never_raises_witness :
  is_ret (generate_variations _default_brand_profile "Announce launch"
            "linkedin" None None 3 w_spoiled_batch).1 = true.
Proof.
  apply (generate_variations_never_raises w_spoiled_batch). reflexivity.
Defined.

Lemma generate_variations_all_or_nothing_witness :
  (generate_variations _default_brand_profile "Announce launch" "linkedin"
     None None 3 w_spoiled_batch).1 = Ret (Posts []).
Proof.
  apply (generate_variations_all_or_nothing w_spoiled_batch
           _default_brand_profile "Announce launch" "linkedin" None None 3
           (list_to_map [("posts", VList [model_post "One"; VStr "oops"])])
           [model_post "One"; VStr "oops"]);
    reflexivity.
Defined.

Lemma generate_variations_needs_brand_voice_witness :
  generate_variations (VDict ∅) "Announce launch" "linkedin" None None 3 w_offline
    = (Raise KeyError, w_offline).
Proof.
  apply (generate_variations_needs_brand_voice w_offline ∅). reflexivity.
Defined.

Lemma add_text_overlay_centres_text_witness :
  ∃ w' x y,
    add_text_overlay "data/generated_images/bg_1.png" (VStr "Launch day")
      _default_brand_profile w_refine_ok
      = (Ret (path_join output_dir ("final_" +:+ clock w_refine_ok 0%nat +:+ ".png")), w') ∧
    log w' = (log w_refine_ok ++ [EOpenImage "data/generated_images/bg_1.png";
                EWrite (path_join output_dir
                          ("final_" +:+ clock w_refine_ok 0%nat +:+ ".png"))
                  (Overlaid "data/generated_images/bg_1.png" (VStr "Launch day")
                     (chosen_font (renders w_refine_ok 0%nat)) x y)])%list ∧
    0 ≤ (1792 - (x + (600 - 0))) - x ≤ 1 ∧
    y = 1024 `div` 3.
Proof.
  apply (add_text_overlay_centres_text w_refine_ok
           "data/generated_images/bg_1.png" (VStr "Launch day")
           _default_brand_profile 1792 1024 0 10 600 130);
    reflexivity.
Defined.

Lemma unknown_platform_fallbacks_differ_witness :
  _get_platform_specs "tiktok" = _get_platform_specs "linkedin" ∧
  _get_image_dimensions (VStr "tiktok") = _get_image_dimensions (VStr "instagram") ∧
  _get_image_dimensions (VStr "tiktok") ≠ _get_image_dimensions (VStr "linkedin").
Proof.
  apply (unknown_platform_fallbacks_differ "tiktok"); discriminate.
Defined.

Lemma scrape_website_bounded_witness :
  (scrape_website "https://example.com" w_offline).1 = Ret "".
Proof.
  destruct (scrape_website_bounded w_offline "https://example.com")
    as (text & w' & Hrun & _ & Hempty & _).
  rewrite Hrun. cbn. f_equal. apply Hempty. reflexivity.
Defined.

Lemma save_post_caption_not_string_witness :
  ∃ w', save_post 0%nat default_output_dir w_numeric_caption = (Raise TypeError, w') ∧
        log w' = (log w_numeric_caption ++
                  [EMakedirs default_output_dir;
                   ECreate (path_join default_output_dir
                              (("post_" +:+ clock w_numeric_caption 0%nat)
                               +:+ "_caption.txt"))])%list.
Proof.
  apply (save_post_caption_not_string w_numeric_caption 0%nat
           (list_to_map [("caption", VInt 5)]) default_output_dir (VInt 5));
    first [reflexivity | discriminate].
Defined.

Lemma refine_post_failure_is_identity_witness :
  refine_post color_names_stub placeholder_stub 0%nat "Make it shorter"
    w_refine_fails = (Ret 0%nat, after_chat Refine w_refine_fails).
Proof.
  apply (refine_post_failure_is_identity color_names_stub placeholder_stub
           w_refine_fails 0%nat launch_post);
    reflexivity.
Defined.

Lemma refine_post_same_caption_has_no_image_witness :
  ∃ l w', refine_post color_names_stub placeholder_stub 0%nat "Change the hook"
            w_same_caption = (Ret l, w') ∧
          l ≠ 0%nat ∧
          (heap w' !!! l) !! "image_path" = None ∧
          heap w' !! 0%nat = Some launch_post ∧
          log w' = (log w_same_caption ++ [EChat Refine])%list.
Proof.
  apply (refine_post_same_caption_has_no_image color_names_stub placeholder_stub
           w_same_caption 0%nat launch_post "Change the hook"
           (fields (model_post "We launch today.")));
    [reflexivity|reflexivity|vm_compute; reflexivity|reflexivity].
Defined.

Lemma generate_background_falls_back_witness :
  ∃ w', generate_background color_names_stub placeholder_stub 0%nat
          _default_brand_profile (VStr "linkedin") w_refine_fails
        = (Ret (path_join output_dir
                  (placeholder_stub "1792x1024" _default_brand_profile)), w') ∧
        last_write is_background_write (log w')
          = Some (path_join output_dir
                    (placeholder_stub "1792x1024" _default_brand_profile)).
Proof.
  apply (generate_background_falls_back color_names_stub placeholder_stub
           w_refine_fails 0%nat _default_brand_profile (VStr "linkedin")
           "1792x1024");
    [reflexivity|reflexivity|discriminate].
Defined.

Lemma generate_background_needs_visual_identity_witness :
  generate_background color_names_stub placeholder_stub 0%nat (VDict ∅)
    (VStr "linkedin") w_refine_fails = (Raise KeyError, w_refine_fails).
Proof.
  apply (generate_background_needs_visual_identity color_names_stub
           placeholder_stub w_refine_fails 0%nat ∅ (VStr "linkedin") "1792x1024");
    reflexivity.
Defined.

Lemma analyze_brand_stores_profile_witness :
  ∃ w', analyze_brand None None None w_partial_profile = (Ret partial_profile, w') ∧
        self_brand_profile w' = partial_profile.
Proof.
  destruct (analyze_brand_stores_profile w_partial_profile None None None)
    as (p & w' & Hrun & Hstored & _ & Hparsed).
  rewrite (Hparsed partial_profile eq_refl) in *.
  by exists w'.
Defined.

Lemma offline_session_yields_no_posts_witness :
  ∃ w1 w2,
    analyze_brand (Some "https://example.com") None None w_offline
      = (Ret _default_brand_profile, w1) ∧
    generate_post color_names_stub placeholder_stub "Announce launch" "linkedin"
      None None w1 = (Ret [], w2) ∧
    count is_image_request (log w2) = count is_image_request (log w_offline) ∧
    count is_background_write (log w2) = count is_background_write (log w_offline).
Proof.
  apply (offline_session_yields_no_posts color_names_stub placeholder_stub
           w_offline).
  intros [|i]; reflexivity.
Defined.

Lemma generate_post_posts_carry_request_witness :
  dict_get (heap (generate_post color_names_stub placeholder_stub
                    "Announce launch" "instagram" None None w_full_run).2 !!! 2%nat)
    "platform" = VStr "instagram" ∧
  dict_get (heap (generate_post color_names_stub placeholder_stub
                    "Announce launch" "instagram" None None w_full_run).2 !!! 2%nat)
    "intent" = VStr "Announce launch" ∧
  dict_get (heap (generate_post color_names_stub placeholder_stub
                    "Announce launch" "instagram" None None w_full_run).2 !!! 2%nat)
    "variation_number" = VInt (Z.of_nat 0 + 1) ∧
  is_str (dict_get (heap (generate_post color_names_stub placeholder_stub
                    "Announce launch" "instagram" None None w_full_run).2 !!! 2%nat)
            "image_path") = true.
Proof.
  apply (generate_post_posts_carry_request color_names_stub placeholder_stub
           w_full_run "Announce launch" "instagram" None None [2%nat]
           (generate_post color_names_stub placeholder_stub
              "Announce launch" "instagram" None None w_full_run).2).
  - vm_compute. reflexivity.
  - reflexivity.
Defined.

Lemma save_post_writes_five_fields_witness :
  dom (list_to_map [("platform", VNone); ("intent", VNone);
                    ("timestamp", VStr "20240101_120000");
                    ("caption", VStr "We launch today.");
                    ("overlay_text", VStr "")] : dict)
    = {["platform"; "intent"; "timestamp"; "caption"; "overlay_text"]} ∧
  heap (save_post 0%nat default_output_dir w_only_caption).2 = heap w_only_caption.
Proof.
  apply (save_post_writes_five_fields w_only_caption 0%nat
           (list_to_map [("caption", VStr "We launch today.")])
           default_output_dir "We launch today."
           (save_post 0%nat default_output_dir w_only_caption).2
           "data/generated_posts/post_20240101_120000_metadata.json").
  - reflexivity.
  - reflexivity.
  - vm_compute. reflexivity.
  - vm_compute. repeat constructor.
  - apply not_elem_of_nil.
Defined.
